(** * Calendar component: day-timeline layout, drag interpreter and local
      event repository

    A shallow embedding of the TypeScript sources

    - [src/utils/timeHelpers.ts]        (the [Event] type),
    - [src/utils/calendarRepo.local.ts] (create / update / delete on
      [localStorage]),
    - [src/components/DayTimeline.tsx]  (interval stacker, pixel/time mapping,
      drag and resize handling, grid and scroll position),
    - [src/components/MonthGrid.tsx]    (the event counts of the day cells),
    - [src/utils/a11y.ts]               (the roving focus index),

    together with the properties the specification states about them.

    Conventions of the embedding.

    - A JavaScript [number] that may be fractional (pixel offsets, minutes,
      hours) is a rational of type [Q].  Where a property rests on how the
      result of an operation is rounded (the round trip between pixels and
      minutes), the operations are those of binary64, [Double.sub],
      [Double.mul] and [Double.div]; elsewhere they are the exact ones.
    - A [Date], and an ISO-8601 UTC string read through [new Date(s)], is its
      time value: the number of milliseconds since the epoch, an integer of
      type [Z].  Strings that do not parse to a date, and time values outside
      the range a [Date] can hold, are outside the model.
    - React state ([useState]) is threaded explicitly; [localStorage] is an
      explicit store passed through the repository functions. *)

From Stdlib Require Import ZArith QArith Qabs Qminmax Qround Qpower Lqa.
From Stdlib Require Import String List Bool Lia.
From Stdlib Require Import Permutation Sorted.
Import ListNotations.

Local Open Scope Z_scope.

(* ------------------------------------------------------------------------- *)
(** * The parts of the JavaScript runtime the sources rely on *)
(* ------------------------------------------------------------------------- *)

Module JS.

(** [ToIntegerOrInfinity] on a finite number: truncation toward zero. *)
Definition toInteger (q : Q) : Z := Z.quot (Qnum q) (Zpos (Qden q)).

Definition msPerSecond : Z := 1000.
Definition msPerMinute : Z := 60000.
Definition msPerHour : Z := 3600000.
Definition msPerDay : Z := 86400000.

(** Time-value decomposition of ECMA-262 (21.4.1). *)
Definition Day (t : Z) : Z := t / msPerDay.
Definition HourFromTime (t : Z) : Z := (t / msPerHour) mod 24.
Definition MinFromTime (t : Z) : Z := (t / msPerMinute) mod 60.
Definition SecFromTime (t : Z) : Z := (t / msPerSecond) mod 60.
Definition msFromTime (t : Z) : Z := t mod msPerSecond.

Definition MakeTime (hour min sec ms : Q) : Z :=
  toInteger hour * msPerHour + toInteger min * msPerMinute
  + toInteger sec * msPerSecond + toInteger ms.

Definition MakeDate (day time : Z) : Z := day * msPerDay + time.

(** [Array.prototype.sort(cmp)] on a copy of the array.  The language
    requires the sort to be stable; for a consistent comparator the result
    is therefore determined, and a stable insertion sort computes it:
    [x], which precedes every element of [l] in the input, is put before
    the first [y] with [cmp x y <= 0]. *)
Section Sort.
Context {A : Type} (cmp : A -> A -> Z).

Fixpoint insert (x : A) (l : list A) : list A :=
  match l with
  | [] => [x]
  | y :: l' => if cmp x y <=? 0 then x :: y :: l' else y :: insert x l'
  end.

Definition sort (l : list A) : list A := fold_right insert [] l.
End Sort.

(** [arr[arr.length - 1]]: [None] stands for the empty array. *)
Fixpoint lastItem {A : Type} (l : list A) : option A :=
  match l with
  | [] => None
  | [x] => Some x
  | _ :: l' => lastItem l'
  end.

(** [arr.findIndex(p)]; [None] stands for the result [-1]. *)
Fixpoint findIndex {A : Type} (p : A -> bool) (l : list A) : option nat :=
  match l with
  | [] => None
  | x :: l' => if p x then Some O else option_map S (findIndex p l')
  end.

(** [arr[i] = v] for an index inside the array. *)
Fixpoint setIndex {A : Type} (i : nat) (v : A) (l : list A) : list A :=
  match l, i with
  | [], _ => []
  | _ :: l', O => v :: l'
  | x :: l', S i' => x :: setIndex i' v l'
  end.

(** The local time zone of the host: [LocalTZA t isUTC] is the offset in
    milliseconds, as in ECMA-262 (21.4.1.23--26). *)
Section Zone.
Variable LocalTZA : Z -> bool -> Z.

Definition LocalTime (t : Z) : Z := t + LocalTZA t true.
Definition UTC (t : Z) : Z := t - LocalTZA t false.

(** [d.setHours(hour, min, sec, ms)] on a date of time value [tv]. *)
Definition setHours (tv : Z) (hour min sec ms : Q) : Z :=
  let t := LocalTime tv in
  UTC (MakeDate (Day t) (MakeTime hour min sec ms)).

(** [d.setMinutes(min)] on a date of time value [tv]. *)
Definition setMinutes (tv : Z) (min : Q) : Z :=
  let t := LocalTime tv in
  UTC (MakeDate (Day t)
         (MakeTime (inject_Z (HourFromTime t)) min
                   (inject_Z (SecFromTime t)) (inject_Z (msFromTime t)))).

(** [d.getHours()] and [d.getMinutes()]. *)
Definition getHours (tv : Z) : Z := HourFromTime (LocalTime tv).
Definition getMinutes (tv : Z) : Z := MinFromTime (LocalTime tv).
End Zone.

End JS.

(* ------------------------------------------------------------------------- *)
(** * The arithmetic of JavaScript numbers *)
(* ------------------------------------------------------------------------- *)

(** A JavaScript number is an IEEE 754 binary64 value.  A finite one is the
    rational it denotes; [x - y], [x * y] and [x / y] are the exact results
    rounded to the nearest binary64 value, ties to the even significand
    (ECMA-262, 6.1.6.1).  Results of magnitude [2^1024] and more (the
    infinities) and NaN are outside the model. *)
Module Double.

(** [floor(log2 x)] for a positive [x]. *)
Definition ilog2 (x : Q) : Z :=
  let d := Z.log2 (Qnum x) - Z.log2 (Zpos (Qden x)) in
  if Qle_bool (2 ^ d) x then d else d - 1.

(** The nearest integer, ties to even. *)
Definition roundEven (x : Q) : Z :=
  let f := Qfloor x in
  match (x - inject_Z f ?= 1 # 2)%Q with
  | Lt => f
  | Gt => f + 1
  | Eq => if Z.even f then f else f + 1
  end.

(** The exponent of the unit in the last place of [x]: a significand of 53
    bits, and no exponent below that of the subnormal numbers. *)
Definition exponent (x : Q) : Z := Z.max (ilog2 (Qabs x) - 52) (-1074).

(** The binary64 value nearest to [x]. *)
Definition round (x : Q) : Q :=
  if Qeq_bool x 0 then 0%Q
  else (inject_Z (roundEven (x / 2 ^ exponent x)) * 2 ^ exponent x)%Q.

Definition sub (x y : Q) : Q := round (x - y).
Definition mul (x y : Q) : Q := round (x * y).
Definition div (x y : Q) : Q := round (x / y).

End Double.

(* ------------------------------------------------------------------------- *)
(** * [date-fns] *)
(* ------------------------------------------------------------------------- *)

Module DateFns.

(** [addMinutes(dirtyDate, dirtyAmount)] of the 2.x releases of the package,
    the ones the sources import (they go with the [zonedTimeToUtc] and
    [utcToZonedTime] of [date-fns-tz] that [timeHelpers.ts] uses):
    [amount = toInteger(dirtyAmount)], which cuts the amount to a whole
    number toward zero, then
    [addMilliseconds(dirtyDate, amount * MILLISECONDS_IN_MINUTE)]. *)
Definition addMinutes (date : Z) (amount : Q) : Z :=
  let amount := JS.toInteger amount in
  date + amount * JS.msPerMinute.

End DateFns.

(* ------------------------------------------------------------------------- *)
(** * [timeHelpers.ts]: the event type *)
(* ------------------------------------------------------------------------- *)

(** [type Event = { id; title; start; end; color?; notes? }].  [end] is a
    keyword, hence [end_]. *)
Module Event.

Record t : Type := mk {
  id : string;
  title : string;
  start : Z;
  end_ : Z;
  color : option string;
  notes : option string
}.

Definition duration (e : t) : Z := end_ e - start e.

(** [{ ...e, start: s }] and [{ ...e, end: s }]. *)
Definition with_start (e : t) (s : Z) : t :=
  mk (id e) (title e) s (end_ e) (color e) (notes e).
Definition with_end (e : t) (s : Z) : t :=
  mk (id e) (title e) (start e) s (color e) (notes e).

End Event.

(** [Omit<Event, 'id'>]. *)
Module Draft.

Record t : Type := mk {
  title : string;
  start : Z;
  end_ : Z;
  color : option string;
  notes : option string
}.

End Draft.

(* ------------------------------------------------------------------------- *)
(** * [calendarRepo.local.ts]: the event repository *)
(* ------------------------------------------------------------------------- *)

Module CalendarRepo.

(** [type Result<T> = { ok: true; data: T } | { ok: false; error: string }]. *)
Inductive Result (T : Type) : Type :=
| ok (data : T)
| err (error : string).
Arguments ok {T} data.
Arguments err {T} error.

(** What [localStorage.getItem(EVENTS_KEY)] returns: [None] for [null] (the
    key was never written), [Some events] for the JSON text of an event list.
    The repository is the only writer of the key and writes
    [JSON.stringify(events)], which [JSON.parse] reads back as the same list;
    the model identifies the text with the list.  On such a store neither
    [JSON.parse] nor the storage calls throw, so the [catch] branches (the
    "Failed to ..." answers) are never taken and are left out.  The functions
    are [async] but never [await]: each runs to completion on one store. *)
Definition LocalStorage : Type := option (list Event.t).

(** [stored ? JSON.parse(stored) : []]: the persisted event list. *)
Definition storedEvents (stored : LocalStorage) : list Event.t :=
  match stored with
  | Some events => events
  | None => []
  end.

Definition getEventsInRange (startISO endISO : Z) (stored : LocalStorage)
  : Result (list Event.t) :=
  match stored with
  | None => ok []
  | Some events =>
      let filtered :=
        filter (fun event =>
                  let eventStart := Event.start event in
                  let eventEnd := Event.end_ event in
                  let rangeStart := startISO in
                  let rangeEnd := endISO in
                  (eventStart <? rangeEnd) && (eventEnd >? rangeStart))
               events in
      ok filtered
  end.

(** [uuid] is the value [crypto.randomUUID()] returns in this call. *)
Definition createEvent (uuid : string) (event : Draft.t) (stored : LocalStorage)
  : Result Event.t * LocalStorage :=
  let events := storedEvents stored in
  if Draft.start event >=? Draft.end_ event
  then (err "End time must be after start time"%string, stored)
  else
    let newEvent :=
      Event.mk uuid (Draft.title event) (Draft.start event) (Draft.end_ event)
               (Draft.color event) (Draft.notes event) in
    let events := events ++ [newEvent] in
    (ok newEvent, Some events).

Definition updateEvent (event : Event.t) (stored : LocalStorage)
  : Result Event.t * LocalStorage :=
  match stored with
  | None => (err "No events found"%string, stored)
  | Some events =>
      if Event.start event >=? Event.end_ event
      then (err "End time must be after start time"%string, stored)
      else
        match JS.findIndex (fun e => String.eqb (Event.id e) (Event.id event))
                           events with
        | None => (err "Event not found"%string, stored)
        | Some index => (ok event, Some (JS.setIndex index event events))
        end
  end.

Definition deleteEvent (id : string) (stored : LocalStorage)
  : Result unit * LocalStorage :=
  match stored with
  | None => (ok tt, stored)
  | Some events =>
      let filtered :=
        filter (fun event => negb (String.eqb (Event.id event) id)) events in
      (ok tt, Some filtered)
  end.

End CalendarRepo.

(* ------------------------------------------------------------------------- *)
(** * [DayTimeline.tsx] *)
(* ------------------------------------------------------------------------- *)

Module DayTimeline.

(** [slotMinutes?: 5 | 10 | 15 | 30]. *)
Inductive SlotMinutes : Type := Slot5 | Slot10 | Slot15 | Slot30.

Definition slotValue (s : SlotMinutes) : Q :=
  match s with
  | Slot5 => 5
  | Slot10 => 10
  | Slot15 => 15
  | Slot30 => 30
  end.

(** The props the layout and the drag handling read.  [dateISO] stands for
    the time value of [new Date(dateISO)]. *)
Record Props : Type := mkProps {
  dateISO : Z;
  startHour : Q;
  endHour : Q;
  slotMinutes : SlotMinutes
}.

(** The defaults of the component: 5, 23 and 15. *)
Definition defaultProps (date : Z) : Props := mkProps date 5 23 Slot15.

(** ** The interval stacker (the first [useEffect]) *)

(** The comparator handed to [sort]. *)
Definition compareEvents (a b : Event.t) : Z :=
  let startA := Event.start a in
  let startB := Event.start b in
  if negb (startA =? startB) then startA - startB
  else
    let durationA := Event.end_ a - Event.start a in
    let durationB := Event.end_ b - Event.start b in
    durationB - durationA.

Definition sortedEvents (events : list Event.t) : list Event.t :=
  JS.sort compareEvents events.

(** The body of [sortedEvents.forEach]; the state is the pair
    [(stacks, currentStack)]. *)
Definition sweep (st : list (list Event.t) * list Event.t) (event : Event.t)
  : list (list Event.t) * list Event.t :=
  let '(stacks, currentStack) := st in
  let eventStart := Event.start event in
  match JS.lastItem currentStack with
  | Some lastEvent =>
      let lastEnd := Event.end_ lastEvent in
      if eventStart <? lastEnd
      then (stacks, currentStack ++ [event])
      else (stacks ++ [currentStack], [event])
  | None => (stacks, currentStack ++ [event])
  end.

(** The value handed to [setEventSlots]. *)
Definition eventSlots (events : list Event.t) : list (list Event.t) :=
  let '(stacks, currentStack) :=
    fold_left sweep (sortedEvents events) ([], []) in
  if (0 <? length currentStack)%nat then stacks ++ [currentStack] else stacks.

(** ** Pixels and minutes *)

(** [Math.max(0, Math.min((y / 40) * slotMinutes, (endHour - startHour) * 60))]
    in [handleMouseMove] and [handleEmptySpaceClick]. *)
Definition minutesFromTop (p : Props) (y : Q) : Q :=
  Qmax 0 (Qmin ((y / 40) * slotValue (slotMinutes p))
               ((endHour p - startHour p) * 60)).

(** [(startMinutes / slotMinutes) * 40] in [renderEvents] and [renderGhost]. *)
Definition top (p : Props) (startMinutes : Q) : Q :=
  (startMinutes / slotValue (slotMinutes p)) * 40.

Definition height (p : Props) (startMinutes endMinutes : Q) : Q :=
  ((endMinutes - startMinutes) / slotValue (slotMinutes p)) * 40.

(** The pixel height of the visible window: one 40px slot per [slotMinutes]. *)
Definition windowHeight (p : Props) : Q :=
  (endHour p - startHour p) * 60 / slotValue (slotMinutes p) * 40.

(** ** Dragging and resizing *)

Inductive DragType : Type := move | resize_top | resize_bottom.

Record Dragging : Type := mkDragging {
  id : option string;
  type : DragType;
  originalStart : Z;
  originalEnd : Z;
  initialY : Q
}.

(** The state the handlers read and write; [containerTop] is
    [containerRef.current.getBoundingClientRect().top], [None] while the ref
    is not attached. *)
Record State : Type := mkState {
  dragging : option Dragging;
  ghostEvent : option Event.t;
  containerTop : option Q
}.

Record MouseEvent : Type := mkMouseEvent {
  button : Z;
  clientY : Q
}.

Definition startDrag (st : State) (kind : DragType) (e : MouseEvent)
  (event : Event.t) : State :=
  mkState
    (Some (mkDragging (Some (Event.id event)) kind
                      (Event.start event) (Event.end_ event) (clientY e)))
    (Some (Event.with_end (Event.with_start event (Event.start event))
                          (Event.end_ event)))
    (containerTop st).

Definition handleMouseDown (st : State) (e : MouseEvent) (event : Event.t)
  : State :=
  if negb (button e =? 0) then st else startDrag st move e event.

Definition handleResizeTop (st : State) (e : MouseEvent) (event : Event.t)
  : State :=
  startDrag st resize_top e event.

Definition handleResizeBottom (st : State) (e : MouseEvent) (event : Event.t)
  : State :=
  startDrag st resize_bottom e event.

(** The handlers depend on the host's time zone and on [addMinutes] of the
    package [date-fns], which is not among the sources: both are parameters,
    and what a property needs of them is stated with the property. *)
Section Host.
Variable LocalTZA : Z -> bool -> Z.
Variable addMinutes : Z -> Q -> Z.

(** [new Date(dateISO)], then [setHours(startHour, 0, 0, 0)], then
    [setMinutes(minutesFromTop)]. *)
Definition newDate (p : Props) (minutes : Q) : Z :=
  let d := dateISO p in
  let d := JS.setHours LocalTZA d (startHour p) 0 0 0 in
  JS.setMinutes LocalTZA d minutes.

(** [getHours() * 60 + getMinutes() - startHour * 60] of [toLocal(start)].
    [toLocal] rests on the package [date-fns-tz], which is not among the
    sources; with the default zone it shows the instant in the host's zone,
    so that the hours and minutes read are the local ones of the instant. *)
Definition startMinutes (p : Props) (eventStart : Z) : Q :=
  inject_Z (JS.getHours LocalTZA eventStart * 60
            + JS.getMinutes LocalTZA eventStart)
  - startHour p * 60.

Definition handleMouseMove (p : Props) (st : State) (e : MouseEvent) : State :=
  match dragging st, ghostEvent st, containerTop st with
  | Some drag, Some ghost, Some rectTop =>
      let y := (clientY e - rectTop)%Q in
      let newDate := newDate p (minutesFromTop p y) in
      let updatedGhostEvent :=
        match type drag with
        | move =>
            let duration :=
              (inject_Z (originalEnd drag - originalStart drag)
               / inject_Z (1000 * 60))%Q in
            Event.with_end (Event.with_start ghost newDate)
                           (addMinutes newDate duration)
        | resize_top =>
            let newStart := newDate in
            if newStart <? Event.end_ ghost
            then Event.with_start ghost newStart
            else ghost
        | resize_bottom =>
            let newEnd := newDate in
            if newEnd >? Event.start ghost
            then Event.with_end ghost newEnd
            else ghost
        end in
      mkState (dragging st) (Some updatedGhostEvent) (containerTop st)
  | _, _, _ => st
  end.

(** The pointer positions of a session, handled one after the other. *)
Definition handleMouseMoves (p : Props) (st : State) (es : list MouseEvent)
  : State :=
  fold_left (handleMouseMove p) es st.

(** [handleEmptySpaceClick]: the draft handed to [onCreate], if any;
    [onTarget] is [e.target === e.currentTarget]. *)
Definition handleEmptySpaceClick (p : Props) (st : State) (onTarget : bool)
  (e : MouseEvent) : option Draft.t :=
  if negb onTarget then None
  else
    match containerTop st with
    | None => None
    | Some rectTop =>
        let y := (clientY e - rectTop)%Q in
        let newDate := newDate p (minutesFromTop p y) in
        let endDate := addMinutes newDate 30 in
        Some (Draft.mk "New Event" newDate endDate None None)
    end.

End Host.

(** [handleMouseUp]: the ghost is handed to [onUpdate] and the session ends. *)
Definition handleMouseUp (st : State) : State * option Event.t :=
  match dragging st, ghostEvent st with
  | Some _, Some ghost => (mkState None None (containerTop st), Some ghost)
  | _, _ => (st, None)
  end.

(** ** The cards *)

(** Where [renderEvents] and [renderGhost] draw an event: the offset of its
    top edge and its height, in pixels ([Math.max(40, height)]). *)
Section Cards.
Variable LocalTZA : Z -> bool -> Z.

Definition cardTop (p : Props) (event : Event.t) : Q :=
  let startMinutes := startMinutes LocalTZA p (Event.start event) in
  top p startMinutes.

Definition cardHeight (p : Props) (event : Event.t) : Q :=
  let endMinutes := startMinutes LocalTZA p (Event.end_ event) in
  let startMinutes := startMinutes LocalTZA p (Event.start event) in
  Qmax 40 (height p startMinutes endMinutes).

End Cards.

(** ** Scrolling *)

(** The effect that scrolls the container: the value assigned to
    [container.scrollTop], [None] when the ref is not attached.
    [startOfDay] is a function of the package [date-fns]. *)
Section Scroll.
Variable LocalTZA : Z -> bool -> Z.
Variable startOfDay : Z -> Z.

Definition scrollToTime (p : Props) (events : list Event.t) (st : State)
  : option Q :=
  match containerTop st with
  | None => None
  | Some _ =>
      let firstEvent :=
        match events with
        | first :: _ => Some (Event.start first)
        | [] => None
        end in
      let targetTime :=
        match firstEvent with
        | Some date => date
        | None => dateISO p
        end in
      let targetTime := JS.setHours LocalTZA targetTime 9 0 0 0 in
      let startOfDayDate := startOfDay targetTime in
      let minutesFromStart :=
        Qmax 0 (inject_Z (targetTime - startOfDayDate)
                / inject_Z (1000 * 60)) in
      let pixelPosition :=
        ((minutesFromStart / slotValue (slotMinutes p)) * 40)%Q in
      Some pixelPosition
  end.

End Scroll.

(** ** The grid *)

(** The loop variable of [renderGrid] starts at 0 and grows by
    [slotMinutes]: it takes whole values only. *)
Definition slotWhole (s : SlotMinutes) : Z :=
  match s with
  | Slot5 => 5
  | Slot10 => 10
  | Slot15 => 15
  | Slot30 => 30
  end.

(** One row of the grid, 40px high: its [key], the [hour] and [minute]
    computed for it, and whether the hour label is rendered
    ([minute === 0]).  The text of the label is not modelled. *)
Record GridLine : Type := mkGridLine {
  key : Z;
  hour : Z;
  minute : Z;
  labelled : bool
}.

Definition gridLine (i : Z) : GridLine :=
  let hour := i / 60 in
  let minute := Z.rem i 60 in
  mkGridLine i hour minute (minute =? 0).

(** [for (let i = 0; i <= totalMinutes; i += slotMinutes)], from [i] on. *)
Fixpoint gridLoop (p : Props) (fuel : nat) (i : Z) : list GridLine :=
  match fuel with
  | O => []
  | S fuel' =>
      if Qle_bool (inject_Z i) ((endHour p - startHour p) * 60)
      then gridLine i :: gridLoop p fuel' (i + slotWhole (slotMinutes p))
      else []
  end.

(** Every turn adds at least one minute: [floor(totalMinutes) + 1] turns
    are enough. *)
Definition renderGrid (p : Props) : list GridLine :=
  let totalMinutes := ((endHour p - startHour p) * 60)%Q in
  gridLoop p (Z.to_nat (Qfloor totalMinutes) + 1) 0.

(** ** Pixels and minutes, as the numbers are computed *)

(** The two mappings with every operation rounded as JavaScript rounds it.
    The values of [slotMinutes] and the constants 40 and 60 are binary64
    values. *)
Module IEEE.

(** [Math.max(0, Math.min((y / 40) * slotMinutes, (endHour - startHour) * 60))]
    in [handleMouseMove] and [handleEmptySpaceClick]. *)
Definition minutesFromTop (p : Props) (y : Q) : Q :=
  Qmax 0 (Qmin (Double.mul (Double.div y 40) (slotValue (slotMinutes p)))
               (Double.mul (Double.sub (endHour p) (startHour p)) 60)).

(** [(startMinutes / slotMinutes) * 40] in [renderEvents] and
    [renderGhost]. *)
Definition top (p : Props) (startMinutes : Q) : Q :=
  Double.mul (Double.div startMinutes (slotValue (slotMinutes p))) 40.

End IEEE.

End DayTimeline.

(* ------------------------------------------------------------------------- *)
(** * [MonthGrid.tsx]: the event counts of the month *)
(* ------------------------------------------------------------------------- *)

Module MonthGrid.

(** [date.toISOString().split('T')[0]]: the calendar date of the instant in
    UTC.  Two instants give the same text exactly when they lie on the same
    UTC day; the text is named by the number of that day. *)
Definition dayISO (t : Z) : Z := JS.Day t.

(** [Record<string, number>]: the keys in the order they were first
    written. *)
Definition Counts : Type := list (Z * Z).

(** [counts[k]]; [None] stands for [undefined]. *)
Fixpoint lookup (k : Z) (counts : Counts) : option Z :=
  match counts with
  | [] => None
  | (k', v) :: rest => if k' =? k then Some v else lookup k rest
  end.

(** [counts[k] = v]. *)
Fixpoint set (k v : Z) (counts : Counts) : Counts :=
  match counts with
  | [] => [(k, v)]
  | (k', v') :: rest =>
      if k' =? k then (k, v) :: rest else (k', v') :: set k v rest
  end.

(** The counting part of the effect; [allDays] are the dates of the cells
    (computed by the package [date-fns]). *)
Definition eventCounts (allDays : list Z) (events : list Event.t) : Counts :=
  let counts : Counts := [] in
  let counts :=
    fold_left (fun counts day =>
                 let dayISO := dayISO day in
                 set dayISO 0 counts)
              allDays counts in
  fold_left (fun counts event =>
               let eventDate := Event.start event in
               let dateISO := dayISO eventDate in
               match lookup dateISO counts with
               | Some n => set dateISO (n + 1) counts
               | None => counts
               end)
            events counts.

(** [eventCounts[dateISO] || 0]. *)
Definition getDayEvents (eventCounts : Counts) (date : Z) : Z :=
  let dateISO := dayISO date in
  match lookup dateISO eventCounts with
  | Some n => if n =? 0 then 0 else n
  | None => 0
  end.

End MonthGrid.

(* ------------------------------------------------------------------------- *)
(** * [a11y.ts]: the roving focus *)
(* ------------------------------------------------------------------------- *)

Module A11y.

(** [handleKeyDown] of [useRovingTabIndex]: the focused index after the key,
    in a grid of [length] items ([items.length]). *)
Definition handleKeyDown (length focusedIndex : Z) (key : string) : Z :=
  let newIndex := focusedIndex in
  if String.eqb key "ArrowUp" then Z.max 0 (focusedIndex - 7)
  else if String.eqb key "ArrowDown" then Z.min (length - 1) (focusedIndex + 7)
  else if String.eqb key "ArrowLeft" then Z.max 0 (focusedIndex - 1)
  else if String.eqb key "ArrowRight"
       then Z.min (length - 1) (focusedIndex + 1)
  else if String.eqb key "Home" then 0
  else if String.eqb key "End" then length - 1
  else newIndex.

End A11y.

(* ------------------------------------------------------------------------- *)
(** * The vocabulary of the stated properties *)
(* ------------------------------------------------------------------------- *)

(** [a] may stand before [b] in the order of the stacker: start ascending,
    ties by duration descending. *)
Definition sortsBefore (a b : Event.t) : Prop :=
  Event.start a < Event.start b
  \/ (Event.start a = Event.start b /\ Event.duration b <= Event.duration a).

(** [h]:[m] o'clock on the day that begins at the instant [day]. *)
Definition clock (day h m : Z) : Z := day + h * 3600000 + m * 60000.

(** The event [e] lasts from [s] to [t]. *)
Definition spans (e : Event.t) (s t : Z) : Prop :=
  Event.start e = s /\ Event.end_ e = t.

(** The chained-overlap test: [b] starts before [a] ends. *)
Definition chained (a b : Event.t) : Prop := Event.start b < Event.end_ a.

(** Stack [s2] was opened after [s1] was closed: the first event of [s2]
    does not start before the last event of [s1] ends. *)
Definition breaks (s1 s2 : list Event.t) : Prop :=
  exists a b,
    JS.lastItem s1 = Some a /\ hd_error s2 = Some b
    /\ Event.end_ a <= Event.start b.

(** [b] does not start before [a] ends: the sweep opens a new stack. *)
Definition apart (a b : Event.t) : Prop := Event.end_ a <= Event.start b.

(** The intervals of [a] and [b] overlap (the test of [getEventsInRange],
    between two events). *)
Definition overlapping (a b : Event.t) : Prop :=
  Event.start a < Event.end_ b /\ Event.start b < Event.end_ a.

(** A stack as the sweep builds it: not empty, each event chained to the one
    placed before it.  ([Sorted R l] relates each element of [l] to its
    successor.) *)
Definition wellChained (stack : list Event.t) : Prop :=
  stack <> [] /\ Sorted chained stack.

(** The instant under the pointer: the candidate edge of a resize and the
    new start of a move. *)
Definition pointerDate (LocalTZA : Z -> bool -> Z) (p : DayTimeline.Props)
  (rectTop : Q) (e : DayTimeline.MouseEvent) : Z :=
  DayTimeline.newDate LocalTZA p
    (DayTimeline.minutesFromTop p (DayTimeline.clientY e - rectTop)%Q).

(** What a move of an event of whole minutes needs of [addMinutes]: handed
    a whole number of minutes, it returns the date that many minutes later.
    Every release of the package does. *)
Definition addsWholeMinutes (addMinutes : Z -> Q -> Z) : Prop :=
  forall date n : Z,
    addMinutes date (inject_Z (n * 60000) / inject_Z (1000 * 60))%Q
    = date + n * 60000.

(** A session that resizes, by the start or by the end handle. *)
Definition resizing (st : DayTimeline.State) : Prop :=
  exists drag,
    DayTimeline.dragging st = Some drag
    /\ (DayTimeline.type drag = DayTimeline.resize_top
        \/ DayTimeline.type drag = DayTimeline.resize_bottom).

(** There is a ghost and it starts strictly before it ends. *)
Definition ghostOrdered (st : DayTimeline.State) : Prop :=
  exists ghost,
    DayTimeline.ghostEvent st = Some ghost
    /\ Event.start ghost < Event.end_ ghost.

(** What [scrollToTime] needs of [startOfDay]: the date set to 00:00:00.000
    of its local day. *)
Definition givesLocalMidnight (LocalTZA : Z -> bool -> Z)
  (startOfDay : Z -> Z) : Prop :=
  forall date, startOfDay date = JS.setHours LocalTZA date 0 0 0 0.

(** What the user does on the timeline, and the state after it. *)
Inductive Gesture : Type :=
| PressEvent (e : DayTimeline.MouseEvent) (event : Event.t)
| PressTopHandle (e : DayTimeline.MouseEvent) (event : Event.t)
| PressBottomHandle (e : DayTimeline.MouseEvent) (event : Event.t)
| MovePointer (e : DayTimeline.MouseEvent)
| ReleasePointer.

Definition perform (LocalTZA : Z -> bool -> Z) (addMinutes : Z -> Q -> Z)
  (p : DayTimeline.Props) (st : DayTimeline.State) (g : Gesture)
  : DayTimeline.State :=
  match g with
  | PressEvent e event => DayTimeline.handleMouseDown st e event
  | PressTopHandle e event => DayTimeline.handleResizeTop st e event
  | PressBottomHandle e event => DayTimeline.handleResizeBottom st e event
  | MovePointer e => DayTimeline.handleMouseMove LocalTZA addMinutes p st e
  | ReleasePointer => fst (DayTimeline.handleMouseUp st)
  end.

(** The events that start on the UTC day of [date]. *)
Definition startsOnDayOf (date : Z) (event : Event.t) : bool :=
  MonthGrid.dayISO (Event.start event) =? MonthGrid.dayISO date.

(** The writes of the repository, and a sequence of them run on a store. *)
Inductive RepoOp : Type :=
| OpCreate (uuid : string) (draft : Draft.t)
| OpUpdate (event : Event.t)
| OpDelete (id : string).

Definition applyOp (stored : CalendarRepo.LocalStorage) (op : RepoOp)
  : CalendarRepo.LocalStorage :=
  match op with
  | OpCreate uuid draft => snd (CalendarRepo.createEvent uuid draft stored)
  | OpUpdate event => snd (CalendarRepo.updateEvent event stored)
  | OpDelete id => snd (CalendarRepo.deleteEvent id stored)
  end.

Definition runOps (ops : list RepoOp) (stored : CalendarRepo.LocalStorage)
  : CalendarRepo.LocalStorage :=
  fold_left applyOp ops stored.

(** The ids of the persisted events, in stored order. *)
Definition storedIds (stored : CalendarRepo.LocalStorage) : list string :=
  map Event.id (CalendarRepo.storedEvents stored).

(** The overlap test of [getEventsInRange]. *)
Definition inRange (rangeStart rangeEnd : Z) (event : Event.t) : bool :=
  (Event.start event <? rangeEnd) && (Event.end_ event >? rangeStart).

(* ------------------------------------------------------------------------- *)
(** * The fixture of the specification *)
(* ------------------------------------------------------------------------- *)

Module Fixture.

(** 2024-01-01T[h]:[m]:00.000Z as a time value. *)
Definition utc (h m : Z) : Z := clock 1704067200000 h m.

Definition ev (name : string) (s e : Z) : Event.t :=
  Event.mk name name s e None None.

Definition nine : Event.t := ev "a" (utc 9 0) (utc 10 0).
Definition half_past_nine : Event.t := ev "b" (utc 9 30) (utc 9 45).
Definition half_past_ten : Event.t := ev "c" (utc 10 30) (utc 11 0).

Definition events : list Event.t := [nine; half_past_nine; half_past_ten].

Definition stacks : list (list Event.t) :=
  [[nine; half_past_nine]; [half_past_ten]].

(** Two hosts: one whose local time is UTC, one an hour ahead of UTC all
    year. *)
Definition hostUTC : Z -> bool -> Z := fun _ _ => 0.
Definition hostPlusOne : Z -> bool -> Z := fun _ _ => 3600000.

(** The default props on 2024-01-01, and a component at rest whose container
    has its top edge 100px below the top of the viewport. *)
Definition props : DayTimeline.Props := DayTimeline.defaultProps (utc 0 0).
Definition idle : DayTimeline.State :=
  DayTimeline.mkState None None (Some 100%Q).

(** A left-button pointer event at [y] pixels below the top of the grid. *)
Definition pointerAt (y : Q) : DayTimeline.MouseEvent :=
  DayTimeline.mkMouseEvent 0 (100 + y)%Q.

(** Sessions on the 09:00-10:00 event: a move and a resize by the start
    handle, both begun at 09:00 (640px). *)
Definition moveSession : DayTimeline.State :=
  DayTimeline.handleMouseDown idle (pointerAt 640) nine.
Definition resizeSession : DayTimeline.State :=
  DayTimeline.handleResizeTop idle (pointerAt 640) nine.

End Fixture.

(* ------------------------------------------------------------------------- *)
(** * Facts about the runtime model *)
(* ------------------------------------------------------------------------- *)

Lemma lastItem_snoc {A : Type} (l : list A) (x : A) :
  JS.lastItem (l ++ [x]) = Some x.
Proof.
  induction l as [|y l IH]; [reflexivity|].
  simpl. rewrite IH. destruct (l ++ [x]) eqn:E; [|reflexivity].
  destruct l; discriminate.
Qed.

Lemma lastItem_None {A : Type} (l : list A) :
  JS.lastItem l = None -> l = [].
Proof.
  induction l as [|y l IH]; [reflexivity|].
  simpl. destruct l as [|z l]; [discriminate|].
  intros H. specialize (IH H). discriminate.
Qed.

Section SortFacts.
Context {A : Type} (cmp : A -> A -> Z).

Lemma insert_perm (x : A) (l : list A) :
  Permutation (x :: l) (JS.insert cmp x l).
Proof.
  induction l as [|y l IH]; simpl; [apply Permutation_refl|].
  destruct (cmp x y <=? 0); [apply Permutation_refl|].
  eapply perm_trans; [apply perm_swap|]. now apply perm_skip.
Qed.

Lemma sort_perm (l : list A) : Permutation l (JS.sort cmp l).
Proof.
  induction l as [|x l IH]; simpl; [constructor|].
  eapply perm_trans; [|apply insert_perm]. now apply perm_skip.
Qed.

Hypothesis cmp_total : forall a b, 0 < cmp a b -> cmp b a <= 0.
Hypothesis cmp_trans :
  forall a b c, cmp a b <= 0 -> cmp b c <= 0 -> cmp a c <= 0.

Lemma insert_sorted (x : A) (l : list A) :
  StronglySorted (fun a b => cmp a b <= 0) l ->
  StronglySorted (fun a b => cmp a b <= 0) (JS.insert cmp x l).
Proof.
  induction 1 as [|y l Hs IH Hy]; simpl.
  - repeat constructor.
  - destruct (Z.leb_spec (cmp x y) 0) as [Hxy|Hxy].
    + constructor; [now constructor|].
      constructor; [exact Hxy|].
      eapply Forall_impl; [|exact Hy].
      intros z Hz. now apply cmp_trans with y.
    + constructor; [exact IH|].
      eapply Permutation_Forall; [apply insert_perm|].
      constructor; [|exact Hy]. now apply cmp_total.
Qed.

Lemma sort_sorted (l : list A) :
  StronglySorted (fun a b => cmp a b <= 0) (JS.sort cmp l).
Proof.
  induction l as [|x l IH]; simpl; [constructor|]. now apply insert_sorted.
Qed.

End SortFacts.

(** Two sorted arrangements of the same elements coincide when no two
    distinct elements tie. *)
Lemma sorted_perm_unique {A : Type} (R : A -> A -> Prop) (l1 l2 : list A) :
  (forall a b, In a l1 -> In b l1 -> R a b -> R b a -> a = b) ->
  StronglySorted R l1 -> StronglySorted R l2 -> Permutation l1 l2 -> l1 = l2.
Proof.
  revert l2. induction l1 as [|a l1 IH]; intros l2 Hanti H1 H2 Hp.
  - now apply Permutation_nil in Hp.
  - destruct l2 as [|b l2].
    { apply Permutation_sym, Permutation_nil in Hp. discriminate. }
    inversion H1 as [|? ? H1' Ha]; subst.
    inversion H2 as [|? ? H2' Hb]; subst.
    assert (a = b) as ->.
    { assert (In a (b :: l2)) as [->|Ina]
        by (eapply Permutation_in; [exact Hp|now left]); [reflexivity|].
      assert (In b (a :: l1)) as [->|Inb]
        by (eapply Permutation_in; [apply Permutation_sym; exact Hp|now left]);
        [reflexivity|].
      rewrite Forall_forall in Ha, Hb.
      apply Hanti; [now left|now right|now apply Ha|now apply Hb]. }
    f_equal. apply IH; auto.
    + intros x y Hx Hy. apply Hanti; now right.
    + now apply Permutation_cons_inv in Hp.
Qed.

Lemma StronglySorted_weaken {A : Type} (R R' : A -> A -> Prop) (l : list A) :
  (forall a b, R a b -> R' a b) -> StronglySorted R l -> StronglySorted R' l.
Proof.
  intros Himp. induction 1 as [|a l Hs IH Ha]; constructor; [exact IH|].
  eapply Forall_impl; [|exact Ha]. intros b. apply Himp.
Qed.

Lemma StronglySorted_app {A : Type} (R : A -> A -> Prop) (l1 l2 : list A) :
  StronglySorted R (l1 ++ l2) -> StronglySorted R l1 /\ StronglySorted R l2.
Proof.
  induction l1 as [|a l1 IH]; simpl; intros H.
  - split; [constructor|exact H].
  - inversion H as [|? ? H' Ha]; subst.
    destruct (IH H') as [IH1 IH2]. split; [|exact IH2].
    constructor; [exact IH1|].
    apply Forall_app in Ha. tauto.
Qed.

Lemma StronglySorted_concat {A : Type} (R : A -> A -> Prop)
  (ls : list (list A)) :
  StronglySorted R (concat ls) -> Forall (StronglySorted R) ls.
Proof.
  induction ls as [|l ls IH]; simpl; intros H; [constructor|].
  apply StronglySorted_app in H as [H1 H2]. constructor; auto.
Qed.

Lemma Sorted_snoc {A : Type} (R : A -> A -> Prop) (l : list A) (x : A) :
  Sorted R l -> (forall a, JS.lastItem l = Some a -> R a x) ->
  Sorted R (l ++ [x]).
Proof.
  induction 1 as [|y l Hs IH Hy]; intros Hlast; simpl.
  - repeat constructor.
  - constructor.
    + apply IH. intros a Ha. apply Hlast. simpl.
      destruct l; [discriminate|exact Ha].
    + destruct l as [|z l]; simpl.
      * constructor. now apply Hlast.
      * inversion Hy; subst. now constructor.
Qed.

Lemma Sorted_snoc_replace {A : Type} (R : A -> A -> Prop) (l : list A)
  (c c' : A) :
  Sorted R (l ++ [c]) -> (forall s, R s c -> R s c') -> Sorted R (l ++ [c']).
Proof.
  intros Hs Himp. induction l as [|y l IH]; simpl in *.
  - repeat constructor.
  - inversion Hs as [|? ? Hs' Hy]; subst. constructor; [now apply IH|].
    destruct l as [|z l]; simpl in *.
    + inversion Hy; subst. constructor. now apply Himp.
    + inversion Hy; subst. now constructor.
Qed.

(* ------------------------------------------------------------------------- *)
(** * The interval stacker *)
(* ------------------------------------------------------------------------- *)

Lemma compareEvents_sortsBefore (a b : Event.t) :
  DayTimeline.compareEvents a b <= 0 <-> sortsBefore a b.
Proof.
  unfold DayTimeline.compareEvents, sortsBefore, Event.duration.
  destruct (Z.eqb_spec (Event.start a) (Event.start b)) as [E|E]; simpl; lia.
Qed.

Lemma compareEvents_total (a b : Event.t) :
  0 < DayTimeline.compareEvents a b -> DayTimeline.compareEvents b a <= 0.
Proof.
  unfold DayTimeline.compareEvents.
  destruct (Z.eqb_spec (Event.start a) (Event.start b)) as [E|E];
    destruct (Z.eqb_spec (Event.start b) (Event.start a)) as [E'|E'];
    simpl; lia.
Qed.

Lemma compareEvents_trans (a b c : Event.t) :
  DayTimeline.compareEvents a b <= 0 -> DayTimeline.compareEvents b c <= 0 ->
  DayTimeline.compareEvents a c <= 0.
Proof.
  rewrite !compareEvents_sortsBefore. unfold sortsBefore, Event.duration. lia.
Qed.

Lemma sortedEvents_perm (events : list Event.t) :
  Permutation events (DayTimeline.sortedEvents events).
Proof. apply sort_perm. Qed.

Lemma sortedEvents_sorted (events : list Event.t) :
  StronglySorted sortsBefore (DayTimeline.sortedEvents events).
Proof.
  eapply StronglySorted_weaken;
    [|apply (sort_sorted DayTimeline.compareEvents)].
  - intros a b. apply compareEvents_sortsBefore.
  - exact compareEvents_total.
  - exact compareEvents_trans.
Qed.

(** [eventSlots] from the state the sweep ends in: the stacks closed so far,
    and the current one when it is not empty. *)
Lemma eventSlots_eq (events : list Event.t) :
  DayTimeline.eventSlots events
  = (let st := fold_left DayTimeline.sweep (DayTimeline.sortedEvents events)
                         ([], []) in
     if (0 <? length (snd st))%nat then fst st ++ [snd st] else fst st).
Proof.
  unfold DayTimeline.eventSlots.
  now destruct (fold_left _ _ _).
Qed.

(** The invariant of the sweep after the events [seen]. *)
Lemma sweep_invariant (seen : list Event.t) :
  let st := fold_left DayTimeline.sweep seen ([], []) in
  let out :=
    if (0 <? length (snd st))%nat then fst st ++ [snd st] else fst st in
  concat out = seen /\ Forall wellChained out /\ Sorted breaks out
  /\ (snd st = [] -> fst st = []).
Proof.
  induction seen as [|x seen IH] using rev_ind; simpl.
  - repeat split; constructor.
  - rewrite fold_left_app. simpl.
    destruct (fold_left DayTimeline.sweep seen ([], [])) as [stacks cur].
    simpl in IH. destruct IH as (Hcat & Hwc & Hbr & Hemp).
    unfold DayTimeline.sweep.
    destruct (JS.lastItem cur) as [a|] eqn:Hlast.
    + assert (cur <> []) as Hne by (intros ->; discriminate).
      assert ((0 <? length cur)%nat = true) as Hlen
        by (destruct cur; [congruence|reflexivity]).
      rewrite Hlen in *.
      apply Forall_app in Hwc as [Hwc Hcur].
      inversion Hcur as [|? ? [_ Hchain] _]; subst.
      destruct (Z.ltb_spec (Event.start x) (Event.end_ a)) as [Hlt|Hge]; simpl.
      * rewrite length_app, Nat.add_comm. simpl.
        repeat split.
        -- rewrite !concat_app. simpl. now rewrite !app_nil_r, app_assoc.
        -- apply Forall_app. split; [exact Hwc|]. constructor; [|constructor].
           split; [now destruct cur|].
           apply Sorted_snoc; [exact Hchain|].
           intros a' Ha'. rewrite Hlast in Ha'. now injection Ha' as <-.
        -- eapply Sorted_snoc_replace; [exact Hbr|].
           intros s (u & v & Hu & Hv & Huv). exists u, v.
           repeat split; auto. destruct cur; [congruence|exact Hv].
        -- intros E. now destruct cur.
      * repeat split.
        -- now rewrite concat_app.
        -- apply Forall_app. split; [apply Forall_app; now split|].
           repeat constructor. discriminate.
        -- apply Sorted_snoc; [exact Hbr|].
           intros s Hs. rewrite lastItem_snoc in Hs. injection Hs as <-.
           exists a, x. now repeat split.
        -- discriminate.
    + apply lastItem_None in Hlast. subst cur. simpl in *.
      rewrite (Hemp eq_refl) in *. simpl in *. subst seen.
      repeat split; try discriminate.
      * repeat constructor. discriminate.
      * repeat constructor.
Qed.

Lemma eventSlots_concat (events : list Event.t) :
  concat (DayTimeline.eventSlots events) = DayTimeline.sortedEvents events.
Proof. rewrite eventSlots_eq. apply sweep_invariant. Qed.

Lemma eventSlots_wellChained (events : list Event.t) :
  Forall wellChained (DayTimeline.eventSlots events).
Proof. rewrite eventSlots_eq. apply sweep_invariant. Qed.

Lemma eventSlots_breaks (events : list Event.t) :
  Sorted breaks (DayTimeline.eventSlots events).
Proof. rewrite eventSlots_eq. apply sweep_invariant. Qed.

(** Three events at 09:00-10:00, 09:30-09:45 and 10:30-11:00 of one day,
    whatever their ids, titles, colors and notes. *)
Lemma three_events_sorted (day : Z) (a b c : Event.t)
  (events : list Event.t) :
  spans a (clock day 9 0) (clock day 10 0) ->
  spans b (clock day 9 30) (clock day 9 45) ->
  spans c (clock day 10 30) (clock day 11 0) ->
  Permutation [a; b; c] events ->
  DayTimeline.sortedEvents events = [a; b; c].
Proof.
  unfold spans, clock. intros [Sa Ea] [Sb Eb] [Sc Ec] Hp. symmetry.
  apply sorted_perm_unique with (R := sortsBefore).
  - intros x y Hx Hy. unfold sortsBefore, Event.duration. simpl in Hx, Hy.
    destruct Hx as [<-|[<-|[<-|[]]]]; destruct Hy as [<-|[<-|[<-|[]]]];
      intros H1 H2; try reflexivity; exfalso; lia.
  - assert (sortsBefore a b /\ sortsBefore a c /\ sortsBefore b c)
      as (Hab & Hac & Hbc) by (unfold sortsBefore; lia).
    repeat (constructor; try assumption).
  - apply sortedEvents_sorted.
  - eapply perm_trans; [exact Hp|apply sortedEvents_perm].
Qed.

Lemma three_events_slots (day : Z) (a b c : Event.t)
  (events : list Event.t) :
  spans a (clock day 9 0) (clock day 10 0) ->
  spans b (clock day 9 30) (clock day 9 45) ->
  spans c (clock day 10 30) (clock day 11 0) ->
  Permutation [a; b; c] events ->
  DayTimeline.eventSlots events = [[a; b]; [c]].
Proof.
  intros Ha Hb Hc Hp.
  rewrite eventSlots_eq, (three_events_sorted day a b c events Ha Hb Hc Hp).
  unfold spans, clock in *.
  destruct Ha as [Sa Ea], Hb as [Sb Eb], Hc as [Sc Ec].
  assert ((Event.start b <? Event.end_ a) = true) as E1
    by (apply Z.ltb_lt; lia).
  assert ((Event.start c <? Event.end_ b) = false) as E2
    by (apply Z.ltb_ge; lia).
  simpl. rewrite E1. simpl. rewrite E2. reflexivity.
Qed.

(** C1.  The stacker sorts the events by start ascending, ties by duration
    descending ([sortedEvents] is a sorted permutation of the input), then
    sweeps the sorted list with the chained-overlap test: the stacks, read
    left to right, are the sorted list cut into runs; inside a run each event
    starts before the event placed just before it ends, and a run ends exactly
    where an event does not start before the end of the last event placed.
    For three events at 09:00-10:00, 09:30-09:45 and 10:30-11:00 of one day,
    given in any order, the result is the two stacks [09:00-10:00,
    09:30-09:45] and [10:30-11:00], in that order. *)
Theorem C1_interval_stacker :
  (forall events : list Event.t,
      Permutation events (DayTimeline.sortedEvents events)
      /\ StronglySorted sortsBefore (DayTimeline.sortedEvents events)
      /\ concat (DayTimeline.eventSlots events)
         = DayTimeline.sortedEvents events
      /\ Forall wellChained (DayTimeline.eventSlots events)
      /\ Sorted breaks (DayTimeline.eventSlots events))
  /\ (forall (day : Z) (a b c : Event.t) (events : list Event.t),
         spans a (clock day 9 0) (clock day 10 0) ->
         spans b (clock day 9 30) (clock day 9 45) ->
         spans c (clock day 10 30) (clock day 11 0) ->
         Permutation [a; b; c] events ->
         DayTimeline.eventSlots events = [[a; b]; [c]]).
Proof.
  split.
  - intros events.
    split; [apply sortedEvents_perm|].
    split; [apply sortedEvents_sorted|].
    split; [apply eventSlots_concat|].
    split; [apply eventSlots_wellChained|apply eventSlots_breaks].
  - exact three_events_slots.
Qed.

Lemma C1_interval_stacker_witness :
  DayTimeline.eventSlots
    [Fixture.half_past_ten; Fixture.nine; Fixture.half_past_nine]
  = Fixture.stacks.
Proof.
  apply (proj2 C1_interval_stacker 1704067200000
           Fixture.nine Fixture.half_past_nine Fixture.half_past_ten).
  - split; reflexivity.
  - split; reflexivity.
  - split; reflexivity.
  - apply (Permutation_app_comm [Fixture.nine; Fixture.half_past_nine]
                                [Fixture.half_past_ten]).
Defined.

(** C9.  The stacks, concatenated, are a permutation of the input (no event
    is dropped or duplicated); they are the sorted list itself, so that each
    stack lists its events in the global sorted order. *)
Theorem C9_stacks_partition_input (events : list Event.t) :
  Permutation events (concat (DayTimeline.eventSlots events))
  /\ concat (DayTimeline.eventSlots events) = DayTimeline.sortedEvents events
  /\ Forall (StronglySorted sortsBefore) (DayTimeline.eventSlots events).
Proof.
  split; [|split].
  - rewrite eventSlots_concat. apply sortedEvents_perm.
  - apply eventSlots_concat.
  - apply StronglySorted_concat. rewrite eventSlots_concat.
    apply sortedEvents_sorted.
Qed.

(** Stability of the sort model: the elements that tie with [e] come out in
    their input order. *)
Lemma sort_stable {A : Type} (cmp : A -> A -> Z) (e : A) (l : list A) :
  (forall x y, cmp e x = 0 -> cmp e y = 0 -> cmp x y <= 0) ->
  filter (fun x => cmp e x =? 0) (JS.sort cmp l)
  = filter (fun x => cmp e x =? 0) l.
Proof.
  intros Htie.
  assert (forall x l,
             filter (fun x => cmp e x =? 0) (JS.insert cmp x l)
             = filter (fun x => cmp e x =? 0) (x :: l)) as Hins.
  { intros x l'. induction l' as [|y l' IH]; [reflexivity|].
    cbn [JS.insert].
    destruct (Z.leb_spec (cmp x y) 0) as [Hxy|Hxy]; [reflexivity|].
    cbn [filter] in *. rewrite IH.
    destruct (Z.eqb_spec (cmp e x) 0) as [Hx|Hx];
      destruct (Z.eqb_spec (cmp e y) 0) as [Hy|Hy]; try reflexivity.
    specialize (Htie x y Hx Hy). lia. }
  induction l as [|x l IH]; [reflexivity|].
  cbn [JS.sort fold_right]. fold (JS.sort cmp l).
  rewrite Hins. cbn [filter]. now rewrite IH.
Qed.

(** X1.  Events with the same start and the same duration keep the order
    they have in [events]. *)
Theorem sortedEvents_stable (events : list Event.t) (e : Event.t) :
  filter (fun x => DayTimeline.compareEvents e x =? 0)
         (DayTimeline.sortedEvents events)
  = filter (fun x => DayTimeline.compareEvents e x =? 0) events.
Proof.
  apply sort_stable. intros x y.
  unfold DayTimeline.compareEvents.
  destruct (Z.eqb_spec (Event.start e) (Event.start x));
    destruct (Z.eqb_spec (Event.start e) (Event.start y));
    destruct (Z.eqb_spec (Event.start x) (Event.start y)); simpl; lia.
Qed.

Lemma three_starts_sorted (a b c : Event.t) (events : list Event.t) :
  Event.start a < Event.start b -> Event.start b < Event.start c ->
  Permutation [a; b; c] events ->
  DayTimeline.sortedEvents events = [a; b; c].
Proof.
  intros Hab Hbc Hp. symmetry.
  apply sorted_perm_unique with (R := sortsBefore).
  - intros x y Hx Hy. unfold sortsBefore. simpl in Hx, Hy.
    destruct Hx as [<-|[<-|[<-|[]]]]; destruct Hy as [<-|[<-|[<-|[]]]];
      intros H1 H2; try reflexivity; exfalso; lia.
  - assert (sortsBefore a b /\ sortsBefore a c /\ sortsBefore b c)
      as (H1 & H2 & H3) by (unfold sortsBefore; lia).
    repeat (constructor; try assumption).
  - apply sortedEvents_sorted.
  - eapply perm_trans; [exact Hp|apply sortedEvents_perm].
Qed.

(** X2.  The test looks at the last placed event only.  Let [a], [b], [c]
    start in this order, [b] start before [a] ends, and [c] start once [b]
    has ended but before [a] ends: [c] opens a stack of its own although it
    overlaps [a], because [b] was placed in between. *)
Theorem chained_not_pairwise (a b c : Event.t) (events : list Event.t) :
  Permutation [a; b; c] events ->
  Event.start a < Event.start b -> Event.start b < Event.start c ->
  Event.start b < Event.end_ a ->
  Event.end_ b <= Event.start c -> Event.start c < Event.end_ a ->
  Event.start c < Event.end_ c ->
  DayTimeline.eventSlots events = [[a; b]; [c]] /\ overlapping a c.
Proof.
  intros Hp Hab Hbc Hchain Hbreak Hac Hc. split.
  - rewrite eventSlots_eq, (three_starts_sorted a b c events Hab Hbc Hp).
    assert ((Event.start b <? Event.end_ a) = true) as E1
      by (apply Z.ltb_lt; lia).
    assert ((Event.start c <? Event.end_ b) = false) as E2
      by (apply Z.ltb_ge; lia).
    simpl. rewrite E1. simpl. rewrite E2. reflexivity.
  - unfold overlapping. lia.
Qed.

Lemma chained_not_pairwise_witness :
  DayTimeline.eventSlots
    [Fixture.ev "late" (Fixture.utc 11 0) (Fixture.utc 11 30);
     Fixture.ev "early" (Fixture.utc 9 30) (Fixture.utc 10 0);
     Fixture.ev "long" (Fixture.utc 9 0) (Fixture.utc 12 0)]
  = [[Fixture.ev "long" (Fixture.utc 9 0) (Fixture.utc 12 0);
      Fixture.ev "early" (Fixture.utc 9 30) (Fixture.utc 10 0)];
     [Fixture.ev "late" (Fixture.utc 11 0) (Fixture.utc 11 30)]]
  /\ overlapping (Fixture.ev "long" (Fixture.utc 9 0) (Fixture.utc 12 0))
                 (Fixture.ev "late" (Fixture.utc 11 0) (Fixture.utc 11 30)).
Proof.
  apply (chained_not_pairwise
           (Fixture.ev "long" (Fixture.utc 9 0) (Fixture.utc 12 0))
           (Fixture.ev "early" (Fixture.utc 9 30) (Fixture.utc 10 0))
           (Fixture.ev "late" (Fixture.utc 11 0) (Fixture.utc 11 30)));
    try reflexivity.
  - apply Permutation_rev with (l :=
      [Fixture.ev "long" (Fixture.utc 9 0) (Fixture.utc 12 0);
       Fixture.ev "early" (Fixture.utc 9 30) (Fixture.utc 10 0);
       Fixture.ev "late" (Fixture.utc 11 0) (Fixture.utc 11 30)]).
  - discriminate.
Defined.

(** The sweep from a state whose current stack ends with [a], over events
    each of which starts once the one before it has ended. *)
Lemma sweep_apart (l : list Event.t) :
  forall (stacks : list (list Event.t)) (cur : list Event.t) (a : Event.t),
    JS.lastItem cur = Some a -> Sorted apart (a :: l) ->
    let st := fold_left DayTimeline.sweep l (stacks, cur) in
    (if (0 <? length (snd st))%nat then fst st ++ [snd st] else fst st)
    = stacks ++ [cur] ++ map (fun e => [e]) l.
Proof.
  induction l as [|x l IH]; intros stacks cur a Hlast Hs; simpl.
  - destruct cur; [discriminate|reflexivity].
  - inversion Hs as [|? ? Hs' Hhd]; subst. inversion Hhd as [|? ? Hax]; subst.
    unfold apart in Hax. rewrite Hlast.
    destruct (Z.ltb_spec (Event.start x) (Event.end_ a)); [lia|].
    rewrite (IH (stacks ++ [cur]) [x] x eq_refl Hs').
    now rewrite <- app_assoc.
Qed.

(** The same, over events each of which starts before the one before it
    ends. *)
Lemma sweep_chained (l : list Event.t) :
  forall (stacks : list (list Event.t)) (cur : list Event.t) (a : Event.t),
    JS.lastItem cur = Some a -> Sorted chained (a :: l) ->
    let st := fold_left DayTimeline.sweep l (stacks, cur) in
    (if (0 <? length (snd st))%nat then fst st ++ [snd st] else fst st)
    = stacks ++ [cur ++ l].
Proof.
  induction l as [|x l IH]; intros stacks cur a Hlast Hs; simpl.
  - rewrite app_nil_r. destruct cur; [discriminate|reflexivity].
  - inversion Hs as [|? ? Hs' Hhd]; subst. inversion Hhd as [|? ? Hax]; subst.
    unfold chained in Hax. rewrite Hlast.
    destruct (Z.ltb_spec (Event.start x) (Event.end_ a)); [|lia].
    rewrite (IH stacks (cur ++ [x]) x (lastItem_snoc cur x) Hs').
    now rewrite <- app_assoc.
Qed.

(** X11.  When, in sorted order, no event starts before the one before it
    has ended, every event gets a stack of its own: as many columns as
    events. *)
Theorem back_to_back_events_one_stack_each (events : list Event.t) :
  Sorted apart (DayTimeline.sortedEvents events) ->
  DayTimeline.eventSlots events
  = map (fun e => [e]) (DayTimeline.sortedEvents events)
  /\ length (DayTimeline.eventSlots events) = length events.
Proof.
  intros Hs.
  assert (DayTimeline.eventSlots events
          = map (fun e => [e]) (DayTimeline.sortedEvents events)) as E.
  { rewrite eventSlots_eq.
    destruct (DayTimeline.sortedEvents events) as [|a l]; [reflexivity|].
    simpl. apply (sweep_apart l [] [a] a eq_refl Hs). }
  split; [exact E|].
  rewrite E, length_map. symmetry. apply Permutation_length.
  apply sortedEvents_perm.
Qed.

Lemma back_to_back_events_one_stack_each_witness :
  DayTimeline.eventSlots
    [Fixture.ev "y" (Fixture.utc 10 0) (Fixture.utc 11 0);
     Fixture.ev "x" (Fixture.utc 9 0) (Fixture.utc 10 0)]
  = map (fun e => [e])
        (DayTimeline.sortedEvents
           [Fixture.ev "y" (Fixture.utc 10 0) (Fixture.utc 11 0);
            Fixture.ev "x" (Fixture.utc 9 0) (Fixture.utc 10 0)])
  /\ length (DayTimeline.eventSlots
               [Fixture.ev "y" (Fixture.utc 10 0) (Fixture.utc 11 0);
                Fixture.ev "x" (Fixture.utc 9 0) (Fixture.utc 10 0)])
     = 2%nat.
Proof.
  apply (back_to_back_events_one_stack_each
           [Fixture.ev "y" (Fixture.utc 10 0) (Fixture.utc 11 0);
            Fixture.ev "x" (Fixture.utc 9 0) (Fixture.utc 10 0)]).
  repeat constructor. discriminate.
Defined.

(** X12.  When, in sorted order, every event starts before the one before it
    ends, all the events share one stack; and without events there is no
    stack. *)
Theorem chain_of_events_one_stack (events : list Event.t) :
  (events <> [] -> Sorted chained (DayTimeline.sortedEvents events) ->
   DayTimeline.eventSlots events = [DayTimeline.sortedEvents events])
  /\ DayTimeline.eventSlots [] = [].
Proof.
  split; [|reflexivity]. intros Hne Hs. rewrite eventSlots_eq.
  destruct (DayTimeline.sortedEvents events) as [|a l] eqn:E.
  - exfalso. apply Hne. apply Permutation_nil. apply Permutation_sym.
    rewrite <- E. apply sortedEvents_perm.
  - simpl. apply (sweep_chained l [] [a] a eq_refl Hs).
Qed.

Lemma chain_of_events_one_stack_witness :
  DayTimeline.eventSlots
    [Fixture.ev "y" (Fixture.utc 9 30) (Fixture.utc 11 0);
     Fixture.ev "x" (Fixture.utc 9 0) (Fixture.utc 10 0)]
  = [DayTimeline.sortedEvents
       [Fixture.ev "y" (Fixture.utc 9 30) (Fixture.utc 11 0);
        Fixture.ev "x" (Fixture.utc 9 0) (Fixture.utc 10 0)]].
Proof.
  apply (proj1 (chain_of_events_one_stack
                  [Fixture.ev "y" (Fixture.utc 9 30) (Fixture.utc 11 0);
                   Fixture.ev "x" (Fixture.utc 9 0) (Fixture.utc 10 0)])).
  - discriminate.
  - repeat constructor.
Defined.

Lemma chained_run_overlaps (stack : list Event.t) :
  Forall (fun e => Event.start e < Event.end_ e) stack ->
  StronglySorted sortsBefore stack -> Sorted chained stack ->
  Sorted overlapping stack.
Proof.
  induction stack as [|a stack IH]; intros Hv Hs Hc; [constructor|].
  inversion Hv as [|? ? Ha Hv']; subst.
  inversion Hs as [|? ? Hs' Hall]; subst.
  inversion Hc as [|? ? Hc' Hhd]; subst.
  constructor; [now apply IH|].
  destruct stack as [|b stack]; constructor.
  inversion Hhd as [|? ? Hab]; subst.
  inversion Hall as [|? ? Hsb _]; subst.
  inversion Hv' as [|? ? Hb _]; subst.
  unfold overlapping, chained, sortsBefore in *. lia.
Qed.

(** X9.  When every event starts before it ends, each event of a stack
    overlaps the event placed just before it in the stack. *)
Theorem stack_neighbours_overlap (events : list Event.t) :
  Forall (fun e => Event.start e < Event.end_ e) events ->
  Forall (Sorted overlapping) (DayTimeline.eventSlots events).
Proof.
  intros Hv.
  assert (Forall (fun e => Event.start e < Event.end_ e)
                 (concat (DayTimeline.eventSlots events))) as Hall.
  { rewrite eventSlots_concat.
    eapply Permutation_Forall; [apply sortedEvents_perm|exact Hv]. }
  assert (Forall (StronglySorted sortsBefore) (DayTimeline.eventSlots events))
    as Hsorted.
  { apply StronglySorted_concat. rewrite eventSlots_concat.
    apply sortedEvents_sorted. }
  pose proof (eventSlots_wellChained events) as Hwc.
  induction (DayTimeline.eventSlots events) as [|stack stacks IH];
    [constructor|].
  simpl in Hall. apply Forall_app in Hall as [Hstack Hrest].
  inversion Hsorted; subst. inversion Hwc as [|? ? [_ Hch] ?]; subst.
  constructor; [now apply chained_run_overlaps|now apply IH].
Qed.

Lemma stack_neighbours_overlap_witness :
  Forall (Sorted overlapping) (DayTimeline.eventSlots Fixture.events).
Proof.
  apply (stack_neighbours_overlap Fixture.events).
  repeat constructor.
Defined.

(* ------------------------------------------------------------------------- *)
(** * The event repository *)
(* ------------------------------------------------------------------------- *)

Lemma findIndex_None {A : Type} (p : A -> bool) (l : list A) :
  JS.findIndex p l = None <-> (forall x, In x l -> p x = false).
Proof.
  induction l as [|y l IH]; simpl.
  - split; [intros _ x []|reflexivity].
  - destruct (p y) eqn:Hy.
    + split; [discriminate|]. intros H. rewrite (H y) in Hy by now left.
      discriminate.
    + destruct (JS.findIndex p l) as [i|]; simpl.
      * split; [discriminate|]. intros H.
        assert (Some i = None) as Habs
          by (apply IH; intros x Hx; apply H; now right).
        discriminate Habs.
      * split; [|reflexivity]. intros _ x [<-|Hx]; [exact Hy|].
        now apply (proj1 IH).
Qed.

Lemma filter_keeps_all {A : Type} (p : A -> bool) (l : list A) :
  (forall x, In x l -> p x = true) -> filter p l = l.
Proof.
  induction l as [|y l IH]; simpl; intros H; [reflexivity|].
  rewrite (H y) by now left. f_equal. apply IH. intros x Hx. apply H.
  now right.
Qed.

Lemma createEvent_invalid (uuid : string) (event : Draft.t)
  (stored : CalendarRepo.LocalStorage) :
  Draft.end_ event <= Draft.start event ->
  CalendarRepo.createEvent uuid event stored
  = (CalendarRepo.err "End time must be after start time"%string, stored).
Proof.
  intros H. unfold CalendarRepo.createEvent.
  destruct (Z.geb_spec (Draft.start event) (Draft.end_ event));
    [reflexivity|lia].
Qed.

Lemma createEvent_valid (uuid : string) (event : Draft.t)
  (stored : CalendarRepo.LocalStorage) :
  Draft.start event < Draft.end_ event ->
  CalendarRepo.createEvent uuid event stored
  = (CalendarRepo.ok
       (Event.mk uuid (Draft.title event) (Draft.start event)
                 (Draft.end_ event) (Draft.color event) (Draft.notes event)),
     Some (CalendarRepo.storedEvents stored
           ++ [Event.mk uuid (Draft.title event) (Draft.start event)
                        (Draft.end_ event) (Draft.color event)
                        (Draft.notes event)])).
Proof.
  intros H. unfold CalendarRepo.createEvent.
  destruct (Z.geb_spec (Draft.start event) (Draft.end_ event));
    [lia|reflexivity].
Qed.

(** C2, as the code has it.  A draft or event whose end is not after its
    start is never written: [createEvent] answers with the validation error;
    [updateEvent] answers with the validation error when the storage key
    holds an event list, and with "No events found" when the key was never
    written (that guard comes before the validation).  The store is left as
    it was in every case. *)
Theorem C2_invalid_interval_never_stored :
  (forall (uuid : string) (event : Draft.t)
          (stored : CalendarRepo.LocalStorage),
      Draft.end_ event <= Draft.start event ->
      CalendarRepo.createEvent uuid event stored
      = (CalendarRepo.err "End time must be after start time"%string, stored))
  /\ (forall (event : Event.t) (stored : CalendarRepo.LocalStorage),
         Event.end_ event <= Event.start event ->
         CalendarRepo.updateEvent event stored
         = (CalendarRepo.err
              match stored with
              | Some _ => "End time must be after start time"%string
              | None => "No events found"%string
              end,
            stored)).
Proof.
  split.
  - exact createEvent_invalid.
  - intros event [events|] H; simpl; [|reflexivity].
    destruct (Z.geb_spec (Event.start event) (Event.end_ event));
      [reflexivity|lia].
Qed.

Lemma C2_invalid_interval_never_stored_witness :
  CalendarRepo.updateEvent
    (Event.mk "e1" "Standup" (Fixture.utc 9 0) (Fixture.utc 9 0) None None)
    (Some [Fixture.nine])
  = (CalendarRepo.err "End time must be after start time"%string,
     Some [Fixture.nine]).
Proof.
  apply (proj2 C2_invalid_interval_never_stored
           (Event.mk "e1" "Standup" (Fixture.utc 9 0) (Fixture.utc 9 0)
                     None None)
           (Some [Fixture.nine])).
  simpl. lia.
Defined.

(** C2 as stated fails for [updateEvent] on a store whose key was never
    written: the answer is "No events found", not the validation error. *)
Lemma C2_update_before_any_write :
  let event :=
    Event.mk "e1" "Standup" (Fixture.utc 9 0) (Fixture.utc 9 0) None None in
  Event.end_ event <= Event.start event
  /\ CalendarRepo.updateEvent event None
     = (CalendarRepo.err "No events found"%string, None)
  /\ fst (CalendarRepo.updateEvent event None)
     <> CalendarRepo.err "End time must be after start time"%string.
Proof.
  simpl. split; [lia|]. split; [reflexivity|discriminate].
Qed.

(** C7, as the code has it.  For an event with start before end whose id is
    not among the persisted events, [updateEvent] leaves the store as it was
    and answers "Event not found" when the storage key holds an event list
    (the empty list included), "No events found" when the key was never
    written. *)
Theorem C7_update_unknown_id (event : Event.t)
  (stored : CalendarRepo.LocalStorage) :
  Event.start event < Event.end_ event ->
  ~ In (Event.id event) (map Event.id (CalendarRepo.storedEvents stored)) ->
  CalendarRepo.updateEvent event stored
  = (CalendarRepo.err
       match stored with
       | Some _ => "Event not found"%string
       | None => "No events found"%string
       end,
     stored).
Proof.
  intros Hlt Hid. destruct stored as [events|]; simpl in *; [|reflexivity].
  destruct (Z.geb_spec (Event.start event) (Event.end_ event)); [lia|].
  replace (JS.findIndex _ events) with (@None nat); [reflexivity|].
  symmetry. apply findIndex_None. intros x Hx.
  apply String.eqb_neq. intros E. apply Hid. rewrite <- E. now apply in_map.
Qed.

Lemma C7_update_unknown_id_witness :
  CalendarRepo.updateEvent Fixture.half_past_ten (Some [Fixture.nine])
  = (CalendarRepo.err "Event not found"%string, Some [Fixture.nine]).
Proof.
  apply (C7_update_unknown_id Fixture.half_past_ten (Some [Fixture.nine])).
  - reflexivity.
  - simpl. intros [H|[]]. discriminate H.
Defined.

(** C7 as stated fails when the persisted list is empty because the key was
    never written: the answer is "No events found". *)
Lemma C7_update_before_any_write :
  Event.start Fixture.nine < Event.end_ Fixture.nine
  /\ CalendarRepo.storedEvents None = []
  /\ CalendarRepo.updateEvent Fixture.nine None
     = (CalendarRepo.err "No events found"%string, None)
  /\ fst (CalendarRepo.updateEvent Fixture.nine None)
     <> CalendarRepo.err "Event not found"%string.
Proof.
  split; [reflexivity|]. split; [reflexivity|].
  split; [reflexivity|discriminate].
Qed.

(** C8.  [deleteEvent] always answers with success.  The persisted list
    afterwards is the list before with the events of that id left out, the
    others in their order; when no persisted event has the id the store is
    left as it was. *)
Theorem C8_delete_is_total (id : string) (stored : CalendarRepo.LocalStorage) :
  fst (CalendarRepo.deleteEvent id stored) = CalendarRepo.ok tt
  /\ CalendarRepo.storedEvents (snd (CalendarRepo.deleteEvent id stored))
     = filter (fun event => negb (String.eqb (Event.id event) id))
              (CalendarRepo.storedEvents stored)
  /\ (forall event,
         In event (CalendarRepo.storedEvents
                     (snd (CalendarRepo.deleteEvent id stored)))
         <-> In event (CalendarRepo.storedEvents stored)
             /\ Event.id event <> id)
  /\ (~ In id (map Event.id (CalendarRepo.storedEvents stored)) ->
      snd (CalendarRepo.deleteEvent id stored) = stored).
Proof.
  assert (CalendarRepo.storedEvents (snd (CalendarRepo.deleteEvent id stored))
          = filter (fun event => negb (String.eqb (Event.id event) id))
                   (CalendarRepo.storedEvents stored)) as Hf
    by now destruct stored.
  split; [now destruct stored|]. split; [exact Hf|]. split.
  - intros event. rewrite Hf, filter_In, negb_true_iff, String.eqb_neq.
    reflexivity.
  - intros Hid. destruct stored as [events|]; simpl in *; [|reflexivity].
    f_equal. apply filter_keeps_all. intros x Hx.
    apply negb_true_iff, String.eqb_neq. intros E. apply Hid.
    rewrite <- E. now apply in_map.
Qed.

Lemma C8_delete_is_total_witness :
  snd (CalendarRepo.deleteEvent "c" (Some [Fixture.nine]))
  = Some [Fixture.nine].
Proof.
  apply (proj2 (proj2 (proj2
           (C8_delete_is_total "c" (Some [Fixture.nine]))))).
  simpl. intros [H|[]]. discriminate H.
Defined.

(** C10.  When [createEvent] succeeds the persisted list is the list before
    with the new event appended; the new event carries the draft's title,
    start, end, color and notes, and the id drawn from [crypto.randomUUID]
    in this call. *)
Theorem C10_create_appends (uuid : string) (event : Draft.t)
  (stored stored' : CalendarRepo.LocalStorage) (newEvent : Event.t) :
  CalendarRepo.createEvent uuid event stored
  = (CalendarRepo.ok newEvent, stored') ->
  CalendarRepo.storedEvents stored'
  = CalendarRepo.storedEvents stored ++ [newEvent]
  /\ Event.title newEvent = Draft.title event
  /\ Event.start newEvent = Draft.start event
  /\ Event.end_ newEvent = Draft.end_ event
  /\ Event.color newEvent = Draft.color event
  /\ Event.notes newEvent = Draft.notes event
  /\ Event.id newEvent = uuid.
Proof.
  unfold CalendarRepo.createEvent.
  destruct (Draft.start event >=? Draft.end_ event); [discriminate|].
  intros [= <- <-]. simpl. repeat split.
Qed.

Lemma C10_create_appends_witness :
  let draft :=
    Draft.mk "Standup" (Fixture.utc 9 0) (Fixture.utc 9 30) None None in
  let created :=
    Event.mk "3b241101-e2bb-4255-8caf-4136c566a962" "Standup"
             (Fixture.utc 9 0) (Fixture.utc 9 30) None None in
  CalendarRepo.storedEvents (Some [Fixture.nine; created])
  = CalendarRepo.storedEvents (Some [Fixture.nine]) ++ [created]
  /\ Event.title created = Draft.title draft
  /\ Event.start created = Draft.start draft
  /\ Event.end_ created = Draft.end_ draft
  /\ Event.color created = Draft.color draft
  /\ Event.notes created = Draft.notes draft
  /\ Event.id created = "3b241101-e2bb-4255-8caf-4136c566a962"%string.
Proof.
  apply (C10_create_appends
           "3b241101-e2bb-4255-8caf-4136c566a962"
           (Draft.mk "Standup" (Fixture.utc 9 0) (Fixture.utc 9 30) None None)
           (Some [Fixture.nine])).
  reflexivity.
Defined.

Lemma getEventsInRange_eq (rangeStart rangeEnd : Z)
  (stored : CalendarRepo.LocalStorage) :
  CalendarRepo.getEventsInRange rangeStart rangeEnd stored
  = CalendarRepo.ok
      (filter (inRange rangeStart rangeEnd) (CalendarRepo.storedEvents stored)).
Proof. destruct stored; reflexivity. Qed.

Lemma deleteEvent_events (id : string) (stored : CalendarRepo.LocalStorage) :
  CalendarRepo.storedEvents (snd (CalendarRepo.deleteEvent id stored))
  = filter (fun event => negb (String.eqb (Event.id event) id))
           (CalendarRepo.storedEvents stored).
Proof. destruct stored; reflexivity. Qed.

Lemma filter_other_ids (id : string) (events : list Event.t) :
  ~ In id (map Event.id events) ->
  filter (fun event => negb (String.eqb (Event.id event) id)) events = events.
Proof.
  intros Hfresh. apply filter_keeps_all. intros x Hx.
  apply Bool.negb_true_iff, String.eqb_neq. intros E. apply Hfresh.
  rewrite <- E. now apply in_map.
Qed.

(** X3.  Create, query, delete, on any store.  A draft that starts before it
    ends, created under an id no stored event has, is answered with the
    draft's fields under that id; a range query then returns what it
    returned before followed by the new event when the event overlaps the
    range (and just what it returned before when it does not); deleting the
    id brings the persisted list, and so the query, back to what they
    were. *)
Theorem create_query_delete (uuid : string) (draft : Draft.t)
  (rangeStart rangeEnd : Z) (stored : CalendarRepo.LocalStorage)
  (found : list Event.t) :
  Draft.start draft < Draft.end_ draft ->
  ~ In uuid (storedIds stored) ->
  CalendarRepo.getEventsInRange rangeStart rangeEnd stored
  = CalendarRepo.ok found ->
  let created :=
    Event.mk uuid (Draft.title draft) (Draft.start draft) (Draft.end_ draft)
             (Draft.color draft) (Draft.notes draft) in
  let s1 := snd (CalendarRepo.createEvent uuid draft stored) in
  let s2 := snd (CalendarRepo.deleteEvent uuid s1) in
  fst (CalendarRepo.createEvent uuid draft stored) = CalendarRepo.ok created
  /\ CalendarRepo.getEventsInRange rangeStart rangeEnd s1
     = CalendarRepo.ok
         (found ++ if (Draft.start draft <? rangeEnd)
                      && (Draft.end_ draft >? rangeStart)
                   then [created] else [])
  /\ fst (CalendarRepo.deleteEvent uuid s1) = CalendarRepo.ok tt
  /\ CalendarRepo.storedEvents s2 = CalendarRepo.storedEvents stored
  /\ CalendarRepo.getEventsInRange rangeStart rangeEnd s2
     = CalendarRepo.ok found.
Proof.
  intros Hvalid Hfresh Hfound. cbv zeta.
  rewrite getEventsInRange_eq in Hfound. injection Hfound as Hfound.
  assert (CalendarRepo.storedEvents
            (snd (CalendarRepo.deleteEvent uuid
                    (snd (CalendarRepo.createEvent uuid draft stored))))
          = CalendarRepo.storedEvents stored) as Hback.
  { rewrite deleteEvent_events, createEvent_valid by exact Hvalid. simpl.
    rewrite filter_app. simpl. rewrite String.eqb_refl. simpl.
    rewrite app_nil_r. now apply filter_other_ids. }
  split; [now rewrite createEvent_valid|].
  split.
  { rewrite getEventsInRange_eq, createEvent_valid by exact Hvalid. simpl.
    rewrite filter_app, Hfound. reflexivity. }
  split; [now rewrite createEvent_valid|].
  split; [exact Hback|].
  now rewrite getEventsInRange_eq, Hback, Hfound.
Qed.

Lemma create_query_delete_witness :
  CalendarRepo.getEventsInRange (Fixture.utc 0 0) (Fixture.utc 24 0)
    (snd (CalendarRepo.createEvent "3b241101-e2bb-4255-8caf-4136c566a962"
            (Draft.mk "Standup" (Fixture.utc 9 0) (Fixture.utc 9 30) None None)
            None))
  = CalendarRepo.ok
      [Event.mk "3b241101-e2bb-4255-8caf-4136c566a962" "Standup"
                (Fixture.utc 9 0) (Fixture.utc 9 30) None None].
Proof.
  apply (create_query_delete "3b241101-e2bb-4255-8caf-4136c566a962"
           (Draft.mk "Standup" (Fixture.utc 9 0) (Fixture.utc 9 30) None None)
           (Fixture.utc 0 0) (Fixture.utc 24 0) None []).
  - reflexivity.
  - intros [].
  - reflexivity.
Defined.

Lemma findIndex_Some {A : Type} (p : A -> bool) (l : list A) (i : nat) :
  JS.findIndex p l = Some i ->
  (exists x, nth_error l i = Some x /\ p x = true)
  /\ (forall j y, (j < i)%nat -> nth_error l j = Some y -> p y = false).
Proof.
  revert i. induction l as [|x l IH]; simpl; intros i; [discriminate|].
  destruct (p x) eqn:Hx.
  - intros [= <-]. split; [now exists x|]. intros j y Hj. lia.
  - destruct (JS.findIndex p l) as [k|]; simpl; [|discriminate].
    intros [= <-]. destruct (IH k eq_refl) as [Hex Hbefore].
    split; [exact Hex|].
    intros [|j] y Hj; simpl.
    + now intros [= <-].
    + apply Hbefore. lia.
Qed.

Lemma setIndex_length {A : Type} (i : nat) (v : A) (l : list A) :
  length (JS.setIndex i v l) = length l.
Proof.
  revert i. induction l as [|x l IH]; intros [|i]; simpl; auto.
Qed.

Lemma setIndex_same {A : Type} (i : nat) (v x : A) (l : list A) :
  nth_error l i = Some x -> nth_error (JS.setIndex i v l) i = Some v.
Proof.
  revert i. induction l as [|y l IH]; intros [|i]; simpl; try discriminate;
    auto.
Qed.

Lemma setIndex_other {A : Type} (i j : nat) (v : A) (l : list A) :
  i <> j -> nth_error (JS.setIndex i v l) j = nth_error l j.
Proof.
  revert i j. induction l as [|y l IH]; intros [|i] [|j] H; simpl; auto.
  congruence.
Qed.

(** X4.  A valid event whose id is stored replaces the first stored event of
    that id, in place: the answer is the event itself, the list keeps its
    length and every other position keeps its event. *)
Theorem updateEvent_replaces_in_place (event : Event.t)
  (events : list Event.t) :
  Event.start event < Event.end_ event ->
  In (Event.id event) (map Event.id events) ->
  exists index old,
    nth_error events index = Some old
    /\ Event.id old = Event.id event
    /\ (forall j e, (j < index)%nat -> nth_error events j = Some e ->
                    Event.id e <> Event.id event)
    /\ CalendarRepo.updateEvent event (Some events)
       = (CalendarRepo.ok event, Some (JS.setIndex index event events))
    /\ length (JS.setIndex index event events) = length events
    /\ nth_error (JS.setIndex index event events) index = Some event
    /\ (forall j, j <> index ->
                  nth_error (JS.setIndex index event events) j
                  = nth_error events j).
Proof.
  intros Hlt Hin. simpl.
  destruct (Z.geb_spec (Event.start event) (Event.end_ event)); [lia|].
  destruct (JS.findIndex (fun e => String.eqb (Event.id e) (Event.id event))
                         events) as [index|] eqn:Hfind.
  - destruct (findIndex_Some _ _ _ Hfind) as [(old & Hold & Hid) Hbefore].
    exists index, old. apply String.eqb_eq in Hid.
    split; [exact Hold|]. split; [exact Hid|]. split.
    { intros j e Hj He. apply String.eqb_neq. now apply (Hbefore j e). }
    split; [reflexivity|]. split; [apply setIndex_length|].
    split; [now apply setIndex_same with old|].
    intros j Hj. apply setIndex_other. congruence.
  - exfalso. apply in_map_iff in Hin as (x & Hx & Hin).
    rewrite findIndex_None in Hfind. specialize (Hfind x Hin).
    apply String.eqb_neq in Hfind. congruence.
Qed.

Lemma updateEvent_replaces_in_place_witness :
  exists index old,
    nth_error Fixture.events index = Some old
    /\ Event.id old = "b"%string
    /\ (forall j e, (j < index)%nat -> nth_error Fixture.events j = Some e ->
                    Event.id e <> "b"%string)
    /\ CalendarRepo.updateEvent
         (Fixture.ev "b" (Fixture.utc 14 0) (Fixture.utc 15 0))
         (Some Fixture.events)
       = (CalendarRepo.ok
            (Fixture.ev "b" (Fixture.utc 14 0) (Fixture.utc 15 0)),
          Some (JS.setIndex index
                  (Fixture.ev "b" (Fixture.utc 14 0) (Fixture.utc 15 0))
                  Fixture.events))
    /\ length (JS.setIndex index
                 (Fixture.ev "b" (Fixture.utc 14 0) (Fixture.utc 15 0))
                 Fixture.events)
       = length Fixture.events
    /\ nth_error (JS.setIndex index
                    (Fixture.ev "b" (Fixture.utc 14 0) (Fixture.utc 15 0))
                    Fixture.events) index
       = Some (Fixture.ev "b" (Fixture.utc 14 0) (Fixture.utc 15 0))
    /\ (forall j, j <> index ->
                  nth_error (JS.setIndex index
                               (Fixture.ev "b" (Fixture.utc 14 0)
                                           (Fixture.utc 15 0))
                               Fixture.events) j
                  = nth_error Fixture.events j).
Proof.
  apply (updateEvent_replaces_in_place
           (Fixture.ev "b" (Fixture.utc 14 0) (Fixture.utc 15 0))
           Fixture.events).
  - reflexivity.
  - simpl. right. left. reflexivity.
Defined.

Lemma setIndex_Forall {A : Type} (P : A -> Prop) (i : nat) (v : A)
  (l : list A) :
  P v -> Forall P l -> Forall P (JS.setIndex i v l).
Proof.
  intros Hv. revert i. induction l as [|x l IH]; intros [|i] H; simpl;
    inversion H; subst; auto.
Qed.

Lemma Forall_filter {A : Type} (P : A -> Prop) (p : A -> bool) (l : list A) :
  Forall P l -> Forall P (filter p l).
Proof.
  rewrite !Forall_forall. intros H x Hx. apply filter_In in Hx. now apply H.
Qed.

Lemma applyOp_valid (stored : CalendarRepo.LocalStorage) (op : RepoOp) :
  Forall (fun e => Event.start e < Event.end_ e)
         (CalendarRepo.storedEvents stored) ->
  Forall (fun e => Event.start e < Event.end_ e)
         (CalendarRepo.storedEvents (applyOp stored op)).
Proof.
  intros H. destruct op as [uuid draft|event|id]; simpl.
  - unfold CalendarRepo.createEvent.
    destruct (Z.geb_spec (Draft.start draft) (Draft.end_ draft));
      [exact H|].
    simpl. apply Forall_app. split; [exact H|].
    constructor; [simpl; lia|constructor].
  - destruct stored as [events|]; [|exact H]. simpl.
    destruct (Z.geb_spec (Event.start event) (Event.end_ event));
      [exact H|].
    destruct (JS.findIndex _ events); [|exact H].
    simpl. apply setIndex_Forall; [lia|exact H].
  - rewrite deleteEvent_events. now apply Forall_filter.
Qed.

(** X13.  The repository keeps its store valid.  For events whose start
    and end are instants (strings that parse to dates, the events of this
    model; a string that does not parse gives NaN, which is outside it): if
    every persisted event starts before it ends, so does every persisted
    event after any sequence of creates, updates and deletes of such events,
    whether the calls succeed or not.  A store that was never written is
    such a store. *)
Theorem stored_events_stay_valid (ops : list RepoOp)
  (stored : CalendarRepo.LocalStorage) :
  Forall (fun e => Event.start e < Event.end_ e)
         (CalendarRepo.storedEvents stored) ->
  Forall (fun e => Event.start e < Event.end_ e)
         (CalendarRepo.storedEvents (runOps ops stored)).
Proof.
  revert stored. unfold runOps.
  induction ops as [|op ops IH]; intros stored H; simpl; [exact H|].
  apply IH. now apply applyOp_valid.
Qed.

Lemma stored_events_stay_valid_witness :
  Forall (fun e => Event.start e < Event.end_ e)
    (CalendarRepo.storedEvents
       (runOps
          [OpCreate "u1" (Draft.mk "Standup" (Fixture.utc 9 0)
                                   (Fixture.utc 9 30) None None);
           OpCreate "u2" (Draft.mk "Backwards" (Fixture.utc 10 0)
                                   (Fixture.utc 9 0) None None);
           OpUpdate (Fixture.ev "u1" (Fixture.utc 11 0) (Fixture.utc 10 0));
           OpUpdate (Fixture.ev "u1" (Fixture.utc 11 0) (Fixture.utc 12 0));
           OpDelete "u3"]
          None)).
Proof.
  apply (stored_events_stay_valid
           [OpCreate "u1" (Draft.mk "Standup" (Fixture.utc 9 0)
                                    (Fixture.utc 9 30) None None);
            OpCreate "u2" (Draft.mk "Backwards" (Fixture.utc 10 0)
                                    (Fixture.utc 9 0) None None);
            OpUpdate (Fixture.ev "u1" (Fixture.utc 11 0) (Fixture.utc 10 0));
            OpUpdate (Fixture.ev "u1" (Fixture.utc 11 0) (Fixture.utc 12 0));
            OpDelete "u3"]
           None).
  constructor.
Defined.

Lemma setIndex_ids (event : Event.t) (events : list Event.t) (index : nat) :
  JS.findIndex (fun e => String.eqb (Event.id e) (Event.id event)) events
  = Some index ->
  map Event.id (JS.setIndex index event events) = map Event.id events.
Proof.
  revert index. induction events as [|x l IH]; intros index; simpl;
    [discriminate|].
  destruct (String.eqb_spec (Event.id x) (Event.id event)) as [E|_].
  - intros [= <-]. simpl. now rewrite E.
  - destruct (JS.findIndex _ l) as [k|]; simpl; [|discriminate].
    intros [= <-]. simpl. f_equal. now apply IH.
Qed.

Lemma updateEvent_ids (event : Event.t) (stored : CalendarRepo.LocalStorage) :
  storedIds (snd (CalendarRepo.updateEvent event stored)) = storedIds stored.
Proof.
  destruct stored as [events|]; [|reflexivity]. simpl.
  destruct (Event.start event >=? Event.end_ event); [reflexivity|].
  destruct (JS.findIndex _ events) as [index|] eqn:Hfind; [|reflexivity].
  unfold storedIds. simpl. now apply setIndex_ids.
Qed.

Lemma deleteEvent_ids (id : string) (stored : CalendarRepo.LocalStorage) :
  storedIds (snd (CalendarRepo.deleteEvent id stored))
  = filter (fun i => negb (String.eqb i id)) (storedIds stored).
Proof.
  unfold storedIds. rewrite deleteEvent_events.
  induction (CalendarRepo.storedEvents stored) as [|x l IH]; simpl;
    [reflexivity|].
  destruct (String.eqb (Event.id x) id); simpl; now rewrite IH.
Qed.

(** X14.  Ids.  An update never changes which ids are stored, nor their
    order; a delete removes exactly the given id; and when the stored ids
    are pairwise distinct they stay so after an update, after a delete, and
    after a create whose id is not stored yet. *)
Theorem writes_keep_ids_distinct (stored : CalendarRepo.LocalStorage)
  (op : RepoOp) :
  NoDup (storedIds stored) ->
  match op with
  | OpCreate uuid _ => ~ In uuid (storedIds stored)
  | _ => True
  end ->
  NoDup (storedIds (applyOp stored op))
  /\ match op with
     | OpCreate _ _ => True
     | OpUpdate _ => storedIds (applyOp stored op) = storedIds stored
     | OpDelete id =>
         forall i, In i (storedIds (applyOp stored op))
                   <-> In i (storedIds stored) /\ i <> id
     end.
Proof.
  intros Hnd Hfresh. destruct op as [uuid draft|event|id]; simpl.
  - split; [|exact I]. unfold CalendarRepo.createEvent.
    destruct (Draft.start draft >=? Draft.end_ draft); [exact Hnd|].
    unfold storedIds in *. simpl. rewrite map_app. simpl.
    apply NoDup_app; [exact Hnd|repeat constructor; intros []|].
    intros x Hx [<-|[]]. now apply Hfresh.
  - rewrite updateEvent_ids. now split.
  - rewrite deleteEvent_ids. split; [now apply NoDup_filter|].
    intros i. rewrite filter_In, Bool.negb_true_iff, String.eqb_neq.
    reflexivity.
Qed.

Lemma writes_keep_ids_distinct_witness :
  NoDup (storedIds
           (applyOp (Some Fixture.events)
              (OpCreate "d" (Draft.mk "Standup" (Fixture.utc 9 0)
                                      (Fixture.utc 9 30) None None)))).
Proof.
  apply (writes_keep_ids_distinct (Some Fixture.events)
           (OpCreate "d" (Draft.mk "Standup" (Fixture.utc 9 0)
                                   (Fixture.utc 9 30) None None))).
  - repeat constructor; simpl; intuition discriminate.
  - simpl. intuition discriminate.
Defined.

Lemma findIndex_setIndex {A : Type} (p : A -> bool) (v : A) (l : list A)
  (i : nat) :
  p v = true -> JS.findIndex p l = Some i ->
  JS.findIndex p (JS.setIndex i v l) = Some i.
Proof.
  intros Hv. revert i. induction l as [|x l IH]; intros i; simpl;
    [discriminate|].
  destruct (p x) eqn:Hx.
  - intros [= <-]. simpl. now rewrite Hv.
  - destruct (JS.findIndex p l) as [k|]; simpl; [|discriminate].
    intros [= <-]. simpl. rewrite Hx. now rewrite (IH k eq_refl).
Qed.

Lemma setIndex_twice {A : Type} (i : nat) (v : A) (l : list A) :
  JS.setIndex i v (JS.setIndex i v l) = JS.setIndex i v l.
Proof.
  revert i. induction l as [|x l IH]; intros [|i]; simpl; auto.
  now rewrite IH.
Qed.

(** X15.  Writes can be repeated safely: updating with the same event a
    second time gives the same answer as the first time and leaves the store
    as the first update left it (whether the update succeeded or failed),
    and so does deleting the same id a second time. *)
Theorem update_and_delete_idempotent (event : Event.t) (id : string)
  (stored : CalendarRepo.LocalStorage) :
  CalendarRepo.updateEvent event
    (snd (CalendarRepo.updateEvent event stored))
  = CalendarRepo.updateEvent event stored
  /\ CalendarRepo.deleteEvent id (snd (CalendarRepo.deleteEvent id stored))
     = CalendarRepo.deleteEvent id stored.
Proof.
  split.
  - destruct stored as [events|]; [|reflexivity]. simpl.
    destruct (Event.start event >=? Event.end_ event) eqn:Hv.
    { simpl. now rewrite Hv. }
    destruct (JS.findIndex _ events) as [index|] eqn:Hfind.
    + simpl. rewrite Hv.
      rewrite (findIndex_setIndex _ event events index
                 (String.eqb_refl _) Hfind).
      now rewrite setIndex_twice.
    + simpl. now rewrite Hv, Hfind.
  - destruct stored as [events|]; [|reflexivity]. simpl.
    do 2 f_equal. apply filter_keeps_all. intros x Hx.
    now apply filter_In in Hx.
Qed.

(* ------------------------------------------------------------------------- *)
(** * Rounding to binary64 *)
(* ------------------------------------------------------------------------- *)

(** Known values: 0.1, and the product that [handleMouseMove] computes for
    a pointer 328px below the top of a grid of 15-minute slots, which falls
    short of 123. *)
Example round_one_tenth :
  (Double.round (1 # 10) == 3602879701896397 # 36028797018963968)%Q.
Proof. reflexivity. Qed.

Example minutes_at_328px :
  (Double.mul (Double.div 328 40) 15 < 123)%Q
  /\ JS.toInteger (Double.mul (Double.div 328 40) 15) = 122.
Proof. split; reflexivity. Qed.

Lemma roundEven_error (x : Q) :
  (Qabs (inject_Z (Double.roundEven x) - x) <= 1 # 2)%Q.
Proof.
  unfold Double.roundEven.
  pose proof (Qfloor_le x) as Hlo. pose proof (Qlt_floor x) as Hhi.
  rewrite inject_Z_plus in Hhi. change (inject_Z 1) with 1%Q in Hhi.
  apply Qabs_Qle_condition.
  destruct (Qcompare_spec (x - inject_Z (Qfloor x)) (1 # 2)) as [H|H|H].
  - destruct (Z.even (Qfloor x)); rewrite ?inject_Z_plus;
      change (inject_Z 1) with 1%Q; lra.
  - lra.
  - rewrite inject_Z_plus. change (inject_Z 1) with 1%Q. lra.
Qed.

Lemma two_nonzero : ~ (2 == 0)%Q.
Proof. discriminate. Qed.

Lemma pow2_pos (e : Z) : (0 < 2 ^ e)%Q.
Proof. apply Qpower_0_lt. reflexivity. Qed.

Lemma pow2_succ (e : Z) : (2 ^ (e + 1) == 2 * 2 ^ e)%Q.
Proof. rewrite Qpower_plus by exact two_nonzero. simpl (2 ^ 1)%Q. ring. Qed.

(** The numerator and the denominator between two powers of two. *)
Lemma log2_bounds (n : Z) :
  0 < n ->
  (2 ^ Z.log2 n <= inject_Z n /\ inject_Z n < 2 ^ (Z.log2 n + 1))%Q.
Proof.
  intros Hn. destruct (Z.log2_spec n Hn) as [Hlo Hhi].
  pose proof (Z.log2_nonneg n) as H0.
  change 2%Q with (inject_Z 2).
  rewrite <- !Zpower_Qpower by lia.
  rewrite <- Zle_Qle, <- Zlt_Qlt. split; [exact Hlo|].
  now rewrite <- Z.add_1_r in Hhi.
Qed.

Lemma ilog2_spec (x : Q) :
  (0 < x)%Q ->
  (2 ^ Double.ilog2 x <= x /\ x < 2 ^ (Double.ilog2 x + 1))%Q.
Proof.
  intros Hx. unfold Double.ilog2.
  destruct x as [p q]. assert (0 < p) as Hp.
  { unfold Qlt in Hx. simpl in Hx. lia. }
  cbn [Qnum Qden].
  destruct (log2_bounds p Hp) as [Hp1 Hp2].
  destruct (log2_bounds (Zpos q) eq_refl) as [Hq1 Hq2].
  set (lp := Z.log2 p) in *. set (lq := Z.log2 (Zpos q)) in *.
  assert (p # q == inject_Z p / inject_Z (Zpos q))%Q as Hx' by
    apply Qmake_Qdiv.
  assert (0 < inject_Z (Zpos q))%Q as Hq0 by reflexivity.
  pose proof (pow2_pos lq) as Hlq. pose proof (pow2_pos (lq + 1)) as Hlq1.
  assert (2 ^ (lp - lq - 1) <= p # q)%Q as Hlow.
  { replace (lp - lq - 1) with (lp - (lq + 1)) by lia.
    rewrite Qpower_minus by exact two_nonzero. rewrite Hx'.
    apply Qle_shift_div_l; [exact Hq0|].
    apply Qle_trans with (2 ^ lp / 2 ^ (lq + 1) * 2 ^ (lq + 1))%Q.
    - apply Qmult_le_l.
      + apply Qlt_shift_div_l; [exact Hlq1|]. rewrite Qmult_0_l.
        apply pow2_pos.
      + now apply Qlt_le_weak.
    - assert (2 ^ lp / 2 ^ (lq + 1) * 2 ^ (lq + 1) == 2 ^ lp)%Q as ->;
        [|exact Hp1].
      field. intros E. rewrite E in Hlq1. discriminate. }
  assert (p # q < 2 ^ (lp - lq + 1))%Q as Hup.
  { replace (lp - lq + 1) with (lp + 1 - lq) by lia.
    rewrite Qpower_minus by exact two_nonzero. rewrite Hx'.
    apply Qlt_shift_div_r; [exact Hq0|].
    apply Qlt_le_trans with (2 ^ (lp + 1))%Q; [exact Hp2|].
    apply Qle_trans with (2 ^ (lp + 1) / 2 ^ lq * 2 ^ lq)%Q.
    - assert (2 ^ (lp + 1) / 2 ^ lq * 2 ^ lq == 2 ^ (lp + 1))%Q as ->;
        [|apply Qle_refl].
      field. intros E. rewrite E in Hlq. discriminate.
    - apply Qmult_le_l; [|exact Hq1].
      apply Qlt_shift_div_l; [exact Hlq|]. rewrite Qmult_0_l.
      apply pow2_pos. }
  destruct (Qle_bool (2 ^ (lp - lq)) (p # q)) eqn:Htest.
  - apply Qle_bool_iff in Htest. split; [exact Htest|exact Hup].
  - split; [exact Hlow|].
    replace (lp - lq - 1 + 1) with (lp - lq) by lia.
    apply Qnot_le_lt. intros H. apply Qle_bool_iff in H. congruence.
Qed.

(** Rounding moves a number by at most half a unit in the last place:
    [2^-53] of its magnitude, or [2^-1075] among the subnormal numbers. *)
Lemma round_error (x : Q) :
  (Qabs (Double.round x - x) <= Qabs x * 2 ^ (-53) + 2 ^ (-1075))%Q.
Proof.
  unfold Double.round. destruct (Qeq_bool x 0) eqn:Hz.
  - apply Qeq_bool_iff in Hz. rewrite Hz.
    setoid_replace (0 - 0)%Q with 0%Q by ring. simpl Qabs.
    rewrite Qmult_0_l, Qplus_0_l. apply Qlt_le_weak, pow2_pos.
  - assert (~ x == 0)%Q as Hx.
    { intros E. apply Qeq_bool_iff in E. congruence. }
    assert (0 < Qabs x)%Q as Hpos.
    { pose proof (Qabs_nonneg x) as Hn. apply Qle_lt_or_eq in Hn.
      destruct Hn as [Hn|Hn]; [exact Hn|].
      exfalso. apply Hx. revert Hn. apply Qabs_case; intros; lra. }
    set (e := Double.exponent x).
    pose proof (pow2_pos e) as He.
    pose proof (roundEven_error (x / 2 ^ e)) as Hr.
    assert (Qabs (inject_Z (Double.roundEven (x / 2 ^ e)) * 2 ^ e - x)
            <= (1 # 2) * 2 ^ e)%Q as Hulp.
    { setoid_replace (inject_Z (Double.roundEven (x / 2 ^ e)) * 2 ^ e - x)%Q
        with ((inject_Z (Double.roundEven (x / 2 ^ e)) - x / 2 ^ e)
              * 2 ^ e)%Q.
      - rewrite Qabs_Qmult. rewrite (Qabs_pos (2 ^ e)) by now apply Qlt_le_weak.
        apply Qmult_le_compat_r; [exact Hr|now apply Qlt_le_weak].
      - field. intros E. rewrite E in He. discriminate. }
    eapply Qle_trans; [exact Hulp|].
    unfold e, Double.exponent.
    destruct (Z.max_spec (Double.ilog2 (Qabs x) - 52) (-1074))
      as [[_ ->]|[_ ->]].
    + assert ((1 # 2) * 2 ^ (-1074) == 2 ^ (-1075))%Q as ->.
      { replace (-1074) with (-1075 + 1) by lia. rewrite pow2_succ. ring. }
      assert (0 <= Qabs x * 2 ^ (-53))%Q; [|lra].
      apply Qmult_le_0_compat; [apply Qabs_nonneg|].
      apply Qlt_le_weak, pow2_pos.
    + destruct (ilog2_spec (Qabs x) Hpos) as [Hlo _].
      set (i := Double.ilog2 (Qabs x)) in *.
      assert ((1 # 2) * 2 ^ (i - 52) == 2 ^ i * 2 ^ (-53))%Q as ->.
      { replace (i - 52) with (i + -53 + 1) by lia.
        rewrite pow2_succ, Qpower_plus by exact two_nonzero. ring. }
      pose proof (pow2_pos (-1075)) as Heta.
      pose proof (pow2_pos (-53)) as Hu.
      assert (2 ^ i * 2 ^ (-53) <= Qabs x * 2 ^ (-53))%Q; [|lra].
      apply Qmult_le_compat_r; [exact Hlo|now apply Qlt_le_weak].
Qed.

(** For a number of magnitude at most [B], with [B] at least 1, that is at
    most [B * 2^-52]. *)
Lemma round_near (x B : Q) :
  (Qabs x <= B -> 1 <= B ->
   Qabs (Double.round x - x) <= B * (1 # 4503599627370496))%Q.
Proof.
  intros Hx HB. eapply Qle_trans; [apply round_error|].
  assert (2 ^ (-53) == 1 # 9007199254740992)%Q as -> by reflexivity.
  assert (2 ^ (-1075) <= 1 # 9007199254740992)%Q as Heta.
  { assert (1 # 9007199254740992 == 2 ^ (-53))%Q as -> by reflexivity.
    apply Qpower_le_compat_l; [lia|discriminate]. }
  pose proof (Qabs_nonneg x). lra.
Qed.

(* ------------------------------------------------------------------------- *)
(** * Pixels and minutes *)
(* ------------------------------------------------------------------------- *)

Lemma toInteger_inject_Z (q : Q) (z : Z) :
  (q == inject_Z z)%Q -> JS.toInteger q = z.
Proof.
  unfold Qeq, JS.toInteger. simpl. intros H.
  rewrite Z.mul_1_r in H. rewrite H. apply Z.quot_mul. discriminate.
Qed.

Lemma toInteger_floor (q : Q) :
  (0 <= q)%Q -> JS.toInteger q = Qfloor q.
Proof.
  destruct q as [n d]. unfold Qle, JS.toInteger, Qfloor. simpl.
  intros H. apply Z.quot_div_nonneg; lia.
Qed.

Lemma toInteger_bounds (q : Q) :
  (0 <= q)%Q ->
  (inject_Z (JS.toInteger q) <= q /\ q < inject_Z (JS.toInteger q) + 1)%Q.
Proof.
  intros H. rewrite (toInteger_floor q H). split; [apply Qfloor_le|].
  pose proof (Qlt_floor q) as Hlt. rewrite inject_Z_plus in Hlt. exact Hlt.
Qed.

Lemma slotValue_pos (s : DayTimeline.SlotMinutes) :
  (0 < DayTimeline.slotValue s)%Q.
Proof. destruct s; reflexivity. Qed.

Lemma minutesFromTop_range (p : DayTimeline.Props) (y : Q) :
  (0 <= DayTimeline.minutesFromTop p y
   /\ DayTimeline.minutesFromTop p y
      <= Qmax 0 ((DayTimeline.endHour p - DayTimeline.startHour p) * 60))%Q.
Proof.
  unfold DayTimeline.minutesFromTop. split; [apply Q.le_max_l|].
  apply Q.max_le_compat_l, Q.le_min_r.
Qed.

(** C6.  In a window whose end hour is not before its start hour, every
    pointer offset, inside the grid or not, is mapped to a number of minutes
    in the closed interval from 0 to [(endHour - startHour) * 60]. *)
Theorem C6_minutes_clamped_to_window (p : DayTimeline.Props) (y : Q) :
  (DayTimeline.startHour p <= DayTimeline.endHour p ->
   0 <= DayTimeline.minutesFromTop p y
   /\ DayTimeline.minutesFromTop p y
      <= (DayTimeline.endHour p - DayTimeline.startHour p) * 60)%Q.
Proof.
  intros Hw. destruct (minutesFromTop_range p y) as [H0 H1].
  split; [exact H0|].
  rewrite Q.max_r in H1; [exact H1|].
  apply Qmult_le_0_compat; [|discriminate].
  unfold Qminus. rewrite <- Qle_minus_iff. exact Hw.
Qed.

Lemma C6_minutes_clamped_to_window_witness :
  (0 <= DayTimeline.minutesFromTop (DayTimeline.defaultProps 1704067200000)
                                   (-25)
   /\ DayTimeline.minutesFromTop (DayTimeline.defaultProps 1704067200000)
                                 (-25)
      <= (23 - 5) * 60)%Q.
Proof.
  apply (C6_minutes_clamped_to_window
           (DayTimeline.defaultProps 1704067200000) (-25)%Q).
  simpl. discriminate.
Defined.

(** ** The round trip, as the numbers are computed *)

(** Divisions by the constants of the mappings, written as products. *)
Ltac by_constants :=
  unfold Qdiv in *;
  change (/ 40)%Q with (1 # 40)%Q in *;
  change (/ 5)%Q with (1 # 5)%Q in *;
  change (/ 10)%Q with (1 # 10)%Q in *;
  change (/ 15)%Q with (1 # 15)%Q in *;
  change (/ 30)%Q with (1 # 30)%Q in *.

(** The rounding of [x], a number of magnitude at most [B]. *)
Ltac near H x B :=
  assert (Qabs (Double.round x - x) <= B * (1 # 4503599627370496))%Q as H
    by (apply round_near; [apply Qabs_Qle_condition; lra|lra]);
  apply Qabs_Qle_condition in H.

Lemma minutes_near (p : DayTimeline.Props) (y : Q) :
  (0 <= y -> y <= DayTimeline.windowHeight p ->
   DayTimeline.endHour p - DayTimeline.startHour p <= 24 ->
   0 <= DayTimeline.IEEE.minutesFromTop p y
   /\ Qabs (DayTimeline.IEEE.minutesFromTop p y
            - y / 40 * DayTimeline.slotValue (DayTimeline.slotMinutes p))
      <= 1 # 100000000000
   /\ DayTimeline.IEEE.minutesFromTop p y
      <= (DayTimeline.endHour p - DayTimeline.startHour p) * 60
         + (1 # 100000000000))%Q.
Proof.
  destruct p as [date sh eh slot].
  unfold DayTimeline.windowHeight, DayTimeline.IEEE.minutesFromTop,
    Double.mul, Double.div, Double.sub. cbn [DayTimeline.startHour
    DayTimeline.endHour DayTimeline.slotMinutes].
  intros Hy Hw Hday. split; [apply Q.le_max_l|].
  rewrite Qabs_Qle_condition.
  destruct slot; cbn [DayTimeline.slotValue] in *; by_constants.
  all: near Ha (y * (1 # 40))%Q 288%Q.
  all: match goal with
       | |- context [Double.round (Double.round ?a * ?s)] =>
           near Hb (Double.round a * s)%Q 1441%Q
       end.
  all: near Hd (eh - sh)%Q 24%Q.
  all: near Hw' (Double.round (eh - sh) * 60)%Q 1441%Q.
  all: match goal with
       | |- context [Qmax 0 (Qmin ?b ?w)] =>
           destruct (Q.min_spec b w) as [[? Hmin]|[? Hmin]];
           destruct (Q.max_spec 0 (Qmin b w)) as [[? Hmax]|[? Hmax]]
       end.
  all: lra.
Qed.

Lemma top_near (p : DayTimeline.Props) (minutes : Q) :
  (0 <= minutes -> minutes <= 1441 ->
   Qabs (DayTimeline.IEEE.top p minutes
         - minutes / DayTimeline.slotValue (DayTimeline.slotMinutes p) * 40)
   <= 1 # 100000000000)%Q.
Proof.
  destruct p as [date sh eh slot].
  unfold DayTimeline.IEEE.top, Double.mul, Double.div.
  cbn [DayTimeline.slotMinutes].
  intros H0 H1. rewrite Qabs_Qle_condition.
  destruct slot; cbn [DayTimeline.slotValue] in *; by_constants.
  all: match goal with
       | |- context [Double.round (Double.round ?a * 40)] =>
           near Hc a 289%Q; near Ht (Double.round a * 40)%Q 11561%Q
       end.
  all: lra.
Qed.

(** C5.  For a pixel offset [y] inside a visible window of at most 24
    hours, with every operation rounded as JavaScript rounds it: the minutes
    the pointer mapping yields are mapped back by the rendering to [y] up to
    a billionth of a pixel; and when the minutes are first cut to a whole
    number, as [setMinutes] does, the offset that comes back is at most a
    billionth of a pixel above [y] and less than one minute's height,
    [40 / slotMinutes] pixels, and a billionth below it: always less than one
    slot, 40 pixels, away from [y]. *)
Theorem C5_pixel_round_trip (p : DayTimeline.Props) (y : Q) :
  (0 <= y -> y <= DayTimeline.windowHeight p ->
   DayTimeline.endHour p - DayTimeline.startHour p <= 24 ->
   Qabs (DayTimeline.IEEE.top p (DayTimeline.IEEE.minutesFromTop p y) - y)
   <= 1 # 1000000000
   /\ y - 40 / DayTimeline.slotValue (DayTimeline.slotMinutes p)
      - (1 # 1000000000)
      < DayTimeline.IEEE.top p
          (inject_Z (JS.toInteger (DayTimeline.IEEE.minutesFromTop p y)))
   /\ DayTimeline.IEEE.top p
        (inject_Z (JS.toInteger (DayTimeline.IEEE.minutesFromTop p y)))
      <= y + (1 # 1000000000)
   /\ Qabs (DayTimeline.IEEE.top p
              (inject_Z (JS.toInteger (DayTimeline.IEEE.minutesFromTop p y)))
            - y) < 40)%Q.
Proof.
  intros Hy Hw Hday.
  destruct (minutes_near p y Hy Hw Hday) as (Hm0 & Hm & Hmw).
  destruct (toInteger_bounds _ Hm0) as [Hk1 Hk2].
  assert (0 <= inject_Z (JS.toInteger (DayTimeline.IEEE.minutesFromTop p y)))%Q
    as Hk0.
  { rewrite toInteger_floor by exact Hm0. change 0%Q with (inject_Z 0).
    rewrite <- Zle_Qle. apply Qfloor_resp_le with (x := 0%Q) in Hm0.
    exact Hm0. }
  set (m := DayTimeline.IEEE.minutesFromTop p y) in *.
  set (k := inject_Z (JS.toInteger m)) in *.
  assert (m <= 1441)%Q as Hm1 by lra.
  pose proof (top_near p m Hm0 Hm1) as Htm.
  assert (k <= 1441)%Q as Hk3 by lra.
  pose proof (top_near p k Hk0 Hk3) as Htk.
  apply Qabs_Qle_condition in Hm, Htm, Htk.
  rewrite Qabs_Qle_condition, Qabs_Qlt_condition.
  destruct p as [date sh eh slot].
  unfold DayTimeline.windowHeight in *.
  cbn [DayTimeline.startHour DayTimeline.endHour DayTimeline.slotMinutes] in *.
  destruct slot; cbn [DayTimeline.slotValue] in *; by_constants;
    repeat split; lra.
Qed.

(** At 328px on the default grid the minutes computed fall short of 123 and
    are cut to 122: the offset that comes back is that of 07:02. *)
Example round_trip_at_328px :
  JS.toInteger
    (DayTimeline.IEEE.minutesFromTop (DayTimeline.defaultProps 1704067200000)
                                     328) = 122
  /\ (DayTimeline.IEEE.top (DayTimeline.defaultProps 1704067200000) 122
      < 328 - 40 / 15 + (1 # 1000000000))%Q.
Proof. split; reflexivity. Qed.

Lemma C5_pixel_round_trip_witness :
  (Qabs (DayTimeline.IEEE.top (DayTimeline.defaultProps 1704067200000)
           (DayTimeline.IEEE.minutesFromTop
              (DayTimeline.defaultProps 1704067200000) 328) - 328)
   <= 1 # 1000000000
   /\ 328 - 40 / 15 - (1 # 1000000000)
      < DayTimeline.IEEE.top (DayTimeline.defaultProps 1704067200000)
          (inject_Z
             (JS.toInteger
                (DayTimeline.IEEE.minutesFromTop
                   (DayTimeline.defaultProps 1704067200000) 328)))
   /\ DayTimeline.IEEE.top (DayTimeline.defaultProps 1704067200000)
        (inject_Z
           (JS.toInteger
              (DayTimeline.IEEE.minutesFromTop
                 (DayTimeline.defaultProps 1704067200000) 328)))
      <= 328 + (1 # 1000000000)
   /\ Qabs (DayTimeline.IEEE.top (DayTimeline.defaultProps 1704067200000)
              (inject_Z
                 (JS.toInteger
                    (DayTimeline.IEEE.minutesFromTop
                       (DayTimeline.defaultProps 1704067200000) 328)))
            - 328) < 40)%Q.
Proof.
  apply (C5_pixel_round_trip (DayTimeline.defaultProps 1704067200000) 328%Q).
  - discriminate.
  - vm_compute. discriminate.
  - vm_compute. discriminate.
Defined.

(** ** The instant under the pointer in a zone of fixed offset *)

Lemma toInteger_of_Z (z : Z) : JS.toInteger (inject_Z z) = z.
Proof. apply toInteger_inject_Z. reflexivity. Qed.

Section FixedOffset.
Variable off : Z.
Variable p : DayTimeline.Props.
Variable h : Z.
Hypothesis startHour_whole : (DayTimeline.startHour p == inject_Z h)%Q.
Hypothesis startHour_range : 0 <= h < 24.

(** [newDate] is local midnight of the day shown, plus [startHour] hours,
    plus the whole minutes from the top of the grid. *)
Lemma newDate_fixed_offset (minutes : Q) :
  DayTimeline.newDate (fun _ _ => off) p minutes
  = JS.Day (DayTimeline.dateISO p + off) * JS.msPerDay
    + h * JS.msPerHour + JS.toInteger minutes * JS.msPerMinute - off.
Proof.
  unfold DayTimeline.newDate, JS.setMinutes, JS.setHours, JS.LocalTime, JS.UTC,
    JS.MakeDate, JS.MakeTime.
  rewrite (toInteger_inject_Z _ h startHour_whole).
  change (JS.toInteger 0) with 0.
  set (D := JS.Day (DayTimeline.dateISO p + off)).
  replace (D * JS.msPerDay
           + (h * JS.msPerHour + 0 * JS.msPerMinute + 0 * JS.msPerSecond + 0)
           - off + off)
    with (D * JS.msPerDay + h * JS.msPerHour) by lia.
  rewrite !toInteger_of_Z.
  assert (JS.Day (D * JS.msPerDay + h * JS.msPerHour) = D) as ->.
  { unfold JS.Day, JS.msPerDay, JS.msPerHour.
    symmetry. apply Z.div_unique with (h * 3600000); lia. }
  assert (JS.HourFromTime (D * JS.msPerDay + h * JS.msPerHour) = h) as ->.
  { unfold JS.HourFromTime, JS.msPerDay, JS.msPerHour.
    replace (D * 86400000 + h * 3600000) with ((D * 24 + h) * 3600000) by lia.
    rewrite Z.div_mul by discriminate.
    rewrite Z.add_comm, Z.mod_add by discriminate. apply Z.mod_small. lia. }
  assert (JS.SecFromTime (D * JS.msPerDay + h * JS.msPerHour) = 0) as ->.
  { unfold JS.SecFromTime, JS.msPerDay, JS.msPerHour, JS.msPerSecond.
    replace (D * 86400000 + h * 3600000) with ((D * 86400 + h * 3600) * 1000)
      by lia.
    rewrite Z.div_mul by discriminate.
    replace (D * 86400 + h * 3600) with (0 + (D * 1440 + h * 60) * 60) by lia.
    now rewrite Z.mod_add. }
  assert (JS.msFromTime (D * JS.msPerDay + h * JS.msPerHour) = 0) as ->.
  { unfold JS.msFromTime, JS.msPerDay, JS.msPerHour, JS.msPerSecond.
    replace (D * 86400000 + h * 3600000)
      with (0 + (D * 86400 + h * 3600) * 1000) by lia.
    now rewrite Z.mod_add. }
  unfold JS.msPerSecond. lia.
Qed.

(** Rendering reads the whole minutes back, as long as the instant stays
    on the day shown. *)
Lemma startMinutes_newDate (minutes : Q) :
  0 <= JS.toInteger minutes -> h * 60 + JS.toInteger minutes < 1440 ->
  (DayTimeline.startMinutes (fun _ _ => off) p
     (DayTimeline.newDate (fun _ _ => off) p minutes)
   == inject_Z (JS.toInteger minutes))%Q.
Proof.
  intros H0 H1. rewrite newDate_fixed_offset.
  unfold DayTimeline.startMinutes, JS.getHours, JS.getMinutes, JS.LocalTime.
  set (D := JS.Day (DayTimeline.dateISO p + off)).
  set (k := JS.toInteger minutes) in *.
  replace (D * JS.msPerDay + h * JS.msPerHour + k * JS.msPerMinute - off + off)
    with (D * JS.msPerDay + (h * 60 + k) * JS.msPerMinute)
    by (unfold JS.msPerHour, JS.msPerMinute; lia).
  assert (JS.HourFromTime (D * JS.msPerDay + (h * 60 + k) * JS.msPerMinute) * 60
          + JS.MinFromTime (D * JS.msPerDay + (h * 60 + k) * JS.msPerMinute)
          = h * 60 + k) as ->.
  { unfold JS.HourFromTime, JS.MinFromTime, JS.msPerDay, JS.msPerHour,
      JS.msPerMinute.
    Z.div_mod_to_equations. lia. }
  rewrite startHour_whole, inject_Z_plus, inject_Z_mult. simpl. ring.
Qed.

End FixedOffset.

(** X7.  In a zone of fixed offset, with a whole start hour and a window
    that ends by 23:59, with every operation on fractional numbers rounded
    as JavaScript rounds it: the instant computed for a pointer inside the
    window is drawn, by the hours and minutes read back from it, at an
    offset that is at most a billionth of a pixel above the pointer's offset
    and less than one minute's height, [40 / slotMinutes] pixels, and a
    billionth below it.  The hours and minutes read back are whole numbers
    and [startHour] is one: their sum and difference are exact in
    binary64. *)
Theorem pointer_instant_round_trip (off h : Z) (p : DayTimeline.Props)
  (rectTop : Q) (e : DayTimeline.MouseEvent) :
  (DayTimeline.startHour p == inject_Z h)%Q -> 0 <= h < 24 ->
  (DayTimeline.endHour p <= 24 - (1 # 60))%Q ->
  (0 <= Double.sub (DayTimeline.clientY e) rectTop)%Q ->
  (Double.sub (DayTimeline.clientY e) rectTop
   <= DayTimeline.windowHeight p)%Q ->
  let y := Double.sub (DayTimeline.clientY e) rectTop in
  let instant :=
    DayTimeline.newDate (fun _ _ => off) p
      (DayTimeline.IEEE.minutesFromTop p y) in
  let drawn :=
    DayTimeline.IEEE.top p
      (DayTimeline.startMinutes (fun _ _ => off) p instant) in
  (y - 40 / DayTimeline.slotValue (DayTimeline.slotMinutes p)
   - (1 # 1000000000) < drawn
   /\ drawn <= y + (1 # 1000000000))%Q.
Proof.
  intros Hh Hrange Hend Hy0 Hy1 y instant drawn. fold y in Hy0, Hy1.
  assert (DayTimeline.endHour p - DayTimeline.startHour p <= 24)%Q as Hday.
  { rewrite Hh. assert (0 <= inject_Z h)%Q; [|lra].
    change 0%Q with (inject_Z 0). rewrite <- Zle_Qle. lia. }
  destruct (minutes_near p y Hy0 Hy1 Hday) as (Hm0 & Hm & Hmw).
  destruct (toInteger_bounds _ Hm0) as [Hk1 Hk2].
  set (m := DayTimeline.IEEE.minutesFromTop p y) in *.
  assert (0 <= JS.toInteger m) as Hk0.
  { rewrite toInteger_floor by exact Hm0.
    now apply Qfloor_resp_le with (x := 0%Q) in Hm0. }
  assert (h * 60 + JS.toInteger m < 1440) as Hsame.
  { rewrite Zlt_Qlt, inject_Z_plus, inject_Z_mult.
    change (inject_Z 60) with 60%Q. change (inject_Z 1440) with 1440%Q.
    rewrite Hh in Hmw. lra. }
  pose proof (startMinutes_newDate off p h Hh Hrange m Hk0 Hsame) as Hsm.
  fold instant in Hsm.
  set (sm := DayTimeline.startMinutes (fun _ _ => off) p instant) in *.
  set (k := inject_Z (JS.toInteger m)) in *.
  assert (0 <= k)%Q as Hk0'.
  { unfold k. change 0%Q with (inject_Z 0). now rewrite <- Zle_Qle. }
  assert (0 <= sm)%Q as Hs0 by lra.
  assert (sm <= 1441)%Q as Hs1 by lra.
  pose proof (top_near p sm Hs0 Hs1) as Ht.
  fold drawn in Ht.
  apply Qabs_Qle_condition in Hm, Ht.
  destruct p as [date sh eh slot].
  unfold DayTimeline.windowHeight in *.
  cbn [DayTimeline.startHour DayTimeline.endHour DayTimeline.slotMinutes] in *.
  destruct slot; cbn [DayTimeline.slotValue] in *; by_constants;
    split; lra.
Qed.

Lemma pointer_instant_round_trip_witness :
  (Double.sub (DayTimeline.clientY (Fixture.pointerAt 328)) 100
   - 40 / DayTimeline.slotValue (DayTimeline.slotMinutes Fixture.props)
   - (1 # 1000000000)
   < DayTimeline.IEEE.top Fixture.props
       (DayTimeline.startMinutes Fixture.hostPlusOne Fixture.props
          (DayTimeline.newDate Fixture.hostPlusOne Fixture.props
             (DayTimeline.IEEE.minutesFromTop Fixture.props
                (Double.sub (DayTimeline.clientY (Fixture.pointerAt 328))
                            100))))
   /\ DayTimeline.IEEE.top Fixture.props
        (DayTimeline.startMinutes Fixture.hostPlusOne Fixture.props
           (DayTimeline.newDate Fixture.hostPlusOne Fixture.props
              (DayTimeline.IEEE.minutesFromTop Fixture.props
                 (Double.sub (DayTimeline.clientY (Fixture.pointerAt 328))
                             100))))
      <= Double.sub (DayTimeline.clientY (Fixture.pointerAt 328)) 100
         + (1 # 1000000000))%Q.
Proof.
  apply (pointer_instant_round_trip 3600000 5 Fixture.props 100%Q
           (Fixture.pointerAt 328)).
  - reflexivity.
  - lia.
  - vm_compute. discriminate.
  - vm_compute. discriminate.
  - vm_compute. discriminate.
Defined.

(** X10.  In a zone of fixed offset, with a whole start hour and an end hour
    not before it, the instant under the pointer, wherever the pointer is,
    lies between the instant the window opens ([startHour]:00 of the day
    shown) and the instant it closes, [(endHour - startHour)] hours later. *)
Theorem pointer_instant_in_window (off h : Z) (p : DayTimeline.Props)
  (rectTop : Q) (e : DayTimeline.MouseEvent) :
  (DayTimeline.startHour p == inject_Z h)%Q -> 0 <= h < 24 ->
  (DayTimeline.startHour p <= DayTimeline.endHour p)%Q ->
  DayTimeline.newDate (fun _ _ => off) p 0
  <= pointerDate (fun _ _ => off) p rectTop e
  /\ (inject_Z (pointerDate (fun _ _ => off) p rectTop e
                - DayTimeline.newDate (fun _ _ => off) p 0)
      <= (DayTimeline.endHour p - DayTimeline.startHour p) * 3600000)%Q.
Proof.
  intros Hh Hrange Hw. unfold pointerDate.
  set (m := DayTimeline.minutesFromTop p (DayTimeline.clientY e - rectTop)%Q).
  rewrite !(newDate_fixed_offset off p h Hh Hrange).
  change (JS.toInteger 0) with 0.
  destruct (toInteger_bounds m) as [Hk _]; [apply minutesFromTop_range|].
  assert (0 <= JS.toInteger m) as Hk0.
  { rewrite toInteger_floor by apply minutesFromTop_range.
    apply Qfloor_resp_le with (x := 0%Q). apply minutesFromTop_range. }
  assert (m <= (DayTimeline.endHour p - DayTimeline.startHour p) * 60)%Q as Hm.
  { destruct (minutesFromTop_range p (DayTimeline.clientY e - rectTop)%Q)
      as [_ Hm].
    rewrite Q.max_r in Hm; [exact Hm|].
    apply Qmult_le_0_compat; [|discriminate].
    unfold Qminus. rewrite <- Qle_minus_iff. exact Hw. }
  split; [unfold JS.msPerMinute; lia|].
  match goal with
  | |- (inject_Z ?d <= _)%Q =>
      replace d with (JS.toInteger m * 60000) by (unfold JS.msPerMinute; lia)
  end.
  rewrite inject_Z_mult.
  setoid_replace ((DayTimeline.endHour p - DayTimeline.startHour p) * 3600000)%Q
    with ((DayTimeline.endHour p - DayTimeline.startHour p) * 60
          * inject_Z 60000)%Q by (simpl; ring).
  apply Qmult_le_compat_r; [|discriminate].
  eapply Qle_trans; [exact Hk|exact Hm].
Qed.

Lemma pointer_instant_in_window_witness :
  DayTimeline.newDate Fixture.hostPlusOne Fixture.props 0
  <= pointerDate Fixture.hostPlusOne Fixture.props 100
       (Fixture.pointerAt 5000)
  /\ (inject_Z (pointerDate Fixture.hostPlusOne Fixture.props 100
                  (Fixture.pointerAt 5000)
                - DayTimeline.newDate Fixture.hostPlusOne Fixture.props 0)
      <= (DayTimeline.endHour Fixture.props
          - DayTimeline.startHour Fixture.props) * 3600000)%Q.
Proof.
  apply (pointer_instant_in_window 3600000 5 Fixture.props 100%Q
           (Fixture.pointerAt 5000)).
  - reflexivity.
  - lia.
  - discriminate.
Defined.

(* ------------------------------------------------------------------------- *)
(** * Dragging and resizing *)
(* ------------------------------------------------------------------------- *)

Section DragFacts.
Variable LocalTZA : Z -> bool -> Z.
Variable addMinutes : Z -> Q -> Z.
Variable p : DayTimeline.Props.

Local Abbreviation step := (DayTimeline.handleMouseMove LocalTZA addMinutes p).
Local Abbreviation steps :=
  (DayTimeline.handleMouseMoves LocalTZA addMinutes p).
Local Abbreviation candidate := (pointerDate LocalTZA p).

(** A pointer move never touches the session or the container. *)
Lemma handleMouseMove_frame (st : DayTimeline.State)
  (e : DayTimeline.MouseEvent) :
  DayTimeline.dragging (step st e) = DayTimeline.dragging st
  /\ DayTimeline.containerTop (step st e) = DayTimeline.containerTop st.
Proof.
  unfold DayTimeline.handleMouseMove.
  destruct st as [[d|] [g|] [c|]]; split; reflexivity.
Qed.

Lemma resize_top_step (st : DayTimeline.State) (e : DayTimeline.MouseEvent)
  (drag : DayTimeline.Dragging) (ghost : Event.t) (rectTop : Q) :
  DayTimeline.dragging st = Some drag ->
  DayTimeline.type drag = DayTimeline.resize_top ->
  DayTimeline.ghostEvent st = Some ghost ->
  DayTimeline.containerTop st = Some rectTop ->
  (Event.end_ ghost <= candidate rectTop e -> step st e = st)
  /\ (candidate rectTop e < Event.end_ ghost ->
      DayTimeline.ghostEvent (step st e)
      = Some (Event.with_start ghost (candidate rectTop e))).
Proof.
  intros Hd Ht Hg Hc. unfold DayTimeline.handleMouseMove.
  destruct st as [d g c]. simpl in *. subst d g c. rewrite Ht.
  fold (candidate rectTop e).
  destruct (Z.ltb_spec (candidate rectTop e) (Event.end_ ghost));
    split; intros; try lia; reflexivity.
Qed.

Lemma resize_bottom_step (st : DayTimeline.State) (e : DayTimeline.MouseEvent)
  (drag : DayTimeline.Dragging) (ghost : Event.t) (rectTop : Q) :
  DayTimeline.dragging st = Some drag ->
  DayTimeline.type drag = DayTimeline.resize_bottom ->
  DayTimeline.ghostEvent st = Some ghost ->
  DayTimeline.containerTop st = Some rectTop ->
  (candidate rectTop e <= Event.start ghost -> step st e = st)
  /\ (Event.start ghost < candidate rectTop e ->
      DayTimeline.ghostEvent (step st e)
      = Some (Event.with_end ghost (candidate rectTop e))).
Proof.
  intros Hd Ht Hg Hc. unfold DayTimeline.handleMouseMove.
  destruct st as [d g c]. simpl in *. subst d g c. rewrite Ht.
  fold (candidate rectTop e).
  destruct (Z.gtb_spec (candidate rectTop e) (Event.start ghost));
    split; intros; try lia; reflexivity.
Qed.

Lemma resize_step_ordered (st : DayTimeline.State)
  (e : DayTimeline.MouseEvent) :
  resizing st -> ghostOrdered st -> ghostOrdered (step st e).
Proof.
  intros (drag & Hd & Ht) (ghost & Hg & Hlt).
  destruct (DayTimeline.containerTop st) as [rectTop|] eqn:Hc.
  - destruct Ht as [Ht|Ht].
    + destruct (resize_top_step st e drag ghost rectTop Hd Ht Hg Hc)
        as [Hrej Hacc].
      destruct (Z.lt_ge_cases (candidate rectTop e) (Event.end_ ghost))
        as [H|H].
      * exists (Event.with_start ghost (candidate rectTop e)).
        split; [now apply Hacc|exact H].
      * rewrite (Hrej H). now exists ghost.
    + destruct (resize_bottom_step st e drag ghost rectTop Hd Ht Hg Hc)
        as [Hrej Hacc].
      destruct (Z.lt_ge_cases (Event.start ghost) (candidate rectTop e))
        as [H|H].
      * exists (Event.with_end ghost (candidate rectTop e)).
        split; [now apply Hacc|exact H].
      * rewrite (Hrej H). now exists ghost.
  - unfold DayTimeline.handleMouseMove. rewrite Hd, Hg, Hc. now exists ghost.
Qed.

Lemma resize_step_resizing (st : DayTimeline.State)
  (e : DayTimeline.MouseEvent) :
  resizing st -> resizing (step st e).
Proof.
  intros (drag & Hd & Ht). exists drag. split; [|exact Ht].
  now rewrite (proj1 (handleMouseMove_frame st e)).
Qed.

Lemma resize_moves_ordered (es : list DayTimeline.MouseEvent)
  (st : DayTimeline.State) :
  resizing st -> ghostOrdered st ->
  resizing (steps st es) /\ ghostOrdered (steps st es).
Proof.
  unfold DayTimeline.handleMouseMoves. revert st.
  induction es as [|e es IH]; intros st Hr Hg; simpl; [now split|].
  apply IH; [now apply resize_step_resizing|now apply resize_step_ordered].
Qed.

(** A move, for an [addMinutes] that adds the original duration exactly at
    the instant under the pointer. *)
Lemma move_step (st : DayTimeline.State) (e : DayTimeline.MouseEvent)
  (drag : DayTimeline.Dragging) (ghost : Event.t) (rectTop : Q) :
  DayTimeline.dragging st = Some drag ->
  DayTimeline.type drag = DayTimeline.move ->
  DayTimeline.ghostEvent st = Some ghost ->
  DayTimeline.containerTop st = Some rectTop ->
  addMinutes (candidate rectTop e)
    (inject_Z (DayTimeline.originalEnd drag - DayTimeline.originalStart drag)
     / inject_Z (1000 * 60))%Q
  = candidate rectTop e
    + (DayTimeline.originalEnd drag - DayTimeline.originalStart drag) ->
  DayTimeline.ghostEvent (step st e)
  = Some (Event.mk (Event.id ghost) (Event.title ghost)
            (candidate rectTop e)
            (candidate rectTop e
             + (DayTimeline.originalEnd drag - DayTimeline.originalStart drag))
            (Event.color ghost) (Event.notes ghost)).
Proof.
  intros Hd Ht Hg Hc Hadd. unfold DayTimeline.handleMouseMove.
  rewrite Hd, Hg, Hc, Ht. unfold pointerDate in *. cbv zeta.
  rewrite Hadd. reflexivity.
Qed.

End DragFacts.

(** C3.  In a resize session whose ghost starts before it ends, every pointer
    move yields a ghost that starts before it ends.  With the start handle a
    candidate start at or after the ghost's end is rejected and the state is
    left as it was, any other candidate becomes the start and the end stays;
    with the end handle a candidate end at or before the ghost's start is
    rejected, any other becomes the end and the start stays.  Hence the
    ghost starts before it ends after every sequence of moves. *)
Theorem C3_resize_keeps_start_before_end (LocalTZA : Z -> bool -> Z)
  (addMinutes : Z -> Q -> Z) (p : DayTimeline.Props)
  (st : DayTimeline.State) :
  resizing st -> ghostOrdered st ->
  (forall e,
      ghostOrdered (DayTimeline.handleMouseMove LocalTZA addMinutes p st e))
  /\ (forall drag ghost rectTop e,
         DayTimeline.dragging st = Some drag ->
         DayTimeline.ghostEvent st = Some ghost ->
         DayTimeline.containerTop st = Some rectTop ->
         (DayTimeline.type drag = DayTimeline.resize_top ->
          (Event.end_ ghost <= pointerDate LocalTZA p rectTop e ->
           DayTimeline.handleMouseMove LocalTZA addMinutes p st e = st)
          /\ (pointerDate LocalTZA p rectTop e < Event.end_ ghost ->
              DayTimeline.ghostEvent
                (DayTimeline.handleMouseMove LocalTZA addMinutes p st e)
              = Some (Event.with_start ghost
                        (pointerDate LocalTZA p rectTop e))))
         /\ (DayTimeline.type drag = DayTimeline.resize_bottom ->
             (pointerDate LocalTZA p rectTop e <= Event.start ghost ->
              DayTimeline.handleMouseMove LocalTZA addMinutes p st e = st)
             /\ (Event.start ghost < pointerDate LocalTZA p rectTop e ->
                 DayTimeline.ghostEvent
                   (DayTimeline.handleMouseMove LocalTZA addMinutes p st e)
                 = Some (Event.with_end ghost
                           (pointerDate LocalTZA p rectTop e)))))
  /\ (forall es,
         resizing (DayTimeline.handleMouseMoves LocalTZA addMinutes p st es)
         /\ ghostOrdered
              (DayTimeline.handleMouseMoves LocalTZA addMinutes p st es)).
Proof.
  intros Hr Hg. split; [|split].
  - intros e. now apply resize_step_ordered.
  - intros drag ghost rectTop e Hd Hgh Hc. split; intros Ht.
    + now apply resize_top_step with (drag := drag).
    + now apply resize_bottom_step with (drag := drag).
  - intros es. now apply resize_moves_ordered.
Qed.

(** A pointer move of a move session, whatever [addMinutes] is: the ghost
    starts at the instant under the pointer and ends where [addMinutes]
    puts that instant plus the original duration, written in minutes. *)
Lemma move_step_any (LocalTZA : Z -> bool -> Z) (addMinutes : Z -> Q -> Z)
  (p : DayTimeline.Props) (st : DayTimeline.State)
  (e : DayTimeline.MouseEvent) (drag : DayTimeline.Dragging)
  (ghost : Event.t) (rectTop : Q) :
  DayTimeline.dragging st = Some drag ->
  DayTimeline.type drag = DayTimeline.move ->
  DayTimeline.ghostEvent st = Some ghost ->
  DayTimeline.containerTop st = Some rectTop ->
  DayTimeline.ghostEvent
    (DayTimeline.handleMouseMove LocalTZA addMinutes p st e)
  = Some (Event.mk (Event.id ghost) (Event.title ghost)
            (pointerDate LocalTZA p rectTop e)
            (addMinutes (pointerDate LocalTZA p rectTop e)
               (inject_Z (DayTimeline.originalEnd drag
                          - DayTimeline.originalStart drag)
                / inject_Z (1000 * 60))%Q)
            (Event.color ghost) (Event.notes ghost)).
Proof.
  intros Hd Ht Hg Hc. unfold DayTimeline.handleMouseMove.
  rewrite Hd, Hg, Hc, Ht. reflexivity.
Qed.

(** A number of milliseconds written in minutes, cut to a whole number. *)
Lemma toInteger_minutes (ms : Z) :
  JS.toInteger (inject_Z ms / inject_Z (1000 * 60))%Q = Z.quot ms 60000.
Proof.
  unfold JS.toInteger. simpl. now rewrite Z.mul_1_r.
Qed.

Lemma addMinutes_addsWholeMinutes : addsWholeMinutes DateFns.addMinutes.
Proof.
  intros date n. unfold DateFns.addMinutes. rewrite toInteger_minutes.
  rewrite Z.quot_mul by discriminate. reflexivity.
Qed.

(** C4.  The move branch writes the original duration in minutes, fractions
    included, and hands it to [addMinutes], which cuts the amount to whole
    minutes.  An event of half a minute, 09:00:00 to 09:00:30, pressed and
    moved to 06:00, gets the ghost 06:00:00 to 06:00:00: the original lasts
    30000 ms, the ghost 0 ms. *)
Theorem C4_move_drops_the_half_minute :
  let short := Fixture.ev "s" (Fixture.utc 9 0) (Fixture.utc 9 0 + 30000) in
  let moved :=
    DayTimeline.handleMouseMove Fixture.hostUTC DateFns.addMinutes
      Fixture.props
      (DayTimeline.handleMouseDown Fixture.idle (Fixture.pointerAt 640) short)
      (Fixture.pointerAt 160) in
  Event.duration short = 30000
  /\ DayTimeline.ghostEvent moved
     = Some (Fixture.ev "s" (Fixture.utc 6 0) (Fixture.utc 6 0))
  /\ exists ghost,
       DayTimeline.ghostEvent moved = Some ghost
       /\ Event.duration ghost = 0
       /\ Event.duration ghost <> Event.duration short.
Proof.
  cbv zeta. split; [reflexivity|]. split; [reflexivity|].
  eexists. split; [reflexivity|]. split; [reflexivity|discriminate].
Qed.

Example pointer_at_160px :
  pointerDate Fixture.hostUTC Fixture.props 100 (Fixture.pointerAt 160)
  = Fixture.utc 6 0.
Proof. reflexivity. Qed.

Example move_to_six :
  DayTimeline.ghostEvent
    (DayTimeline.handleMouseMove Fixture.hostUTC DateFns.addMinutes
       Fixture.props Fixture.moveSession (Fixture.pointerAt 160))
  = Some (Fixture.ev "a" (Fixture.utc 6 0) (Fixture.utc 7 0)).
Proof. reflexivity. Qed.

Example resize_start_rejected_then_accepted :
  DayTimeline.ghostEvent
    (DayTimeline.handleMouseMoves Fixture.hostUTC DateFns.addMinutes
       Fixture.props Fixture.resizeSession
       [Fixture.pointerAt 960; Fixture.pointerAt 720])
  = Some (Fixture.ev "a" (Fixture.utc 9 30) (Fixture.utc 10 0)).
Proof. reflexivity. Qed.

Lemma C3_resize_keeps_start_before_end_witness :
  ghostOrdered
    (DayTimeline.handleMouseMoves Fixture.hostUTC DateFns.addMinutes
       Fixture.props Fixture.resizeSession
       [Fixture.pointerAt 960; Fixture.pointerAt 720; Fixture.pointerAt (-40)]).
Proof.
  apply (C3_resize_keeps_start_before_end Fixture.hostUTC DateFns.addMinutes
           Fixture.props Fixture.resizeSession).
  - eexists. split; [reflexivity|]. left. reflexivity.
  - eexists. split; [reflexivity|]. reflexivity.
Defined.

(** X5.  Let [addMinutes] add whole numbers of minutes, as every release
    of the package does, and let the event last a whole number of minutes.
    From pointer-down on the event to any later pointer move of the session,
    with or without an attached container, the ghost keeps the event's id
    and lasts exactly as long as the event. *)
Theorem move_session_keeps_duration (LocalTZA : Z -> bool -> Z)
  (addMinutes : Z -> Q -> Z) (p : DayTimeline.Props)
  (st : DayTimeline.State) (down : DayTimeline.MouseEvent) (event : Event.t)
  (es : list DayTimeline.MouseEvent) (n : Z) :
  addsWholeMinutes addMinutes ->
  Event.end_ event - Event.start event = n * 60000 ->
  DayTimeline.button down = 0 ->
  exists ghost,
    DayTimeline.ghostEvent
      (DayTimeline.handleMouseMoves LocalTZA addMinutes p
         (DayTimeline.handleMouseDown st down event) es)
    = Some ghost
    /\ Event.duration ghost = Event.duration event
    /\ Event.id ghost = Event.id event.
Proof.
  intros Hadd Hn Hb. unfold DayTimeline.handleMouseDown. rewrite Hb. simpl.
  unfold DayTimeline.handleMouseMoves.
  set (drag := DayTimeline.mkDragging (Some (Event.id event)) DayTimeline.move
                 (Event.start event) (Event.end_ event)
                 (DayTimeline.clientY down)).
  assert (forall s,
             DayTimeline.dragging s = Some drag ->
             (exists g, DayTimeline.ghostEvent s = Some g
                        /\ Event.duration g = Event.duration event
                        /\ Event.id g = Event.id event) ->
             exists ghost,
               DayTimeline.ghostEvent
                 (fold_left (DayTimeline.handleMouseMove LocalTZA addMinutes p)
                            es s)
               = Some ghost
               /\ Event.duration ghost = Event.duration event
               /\ Event.id ghost = Event.id event) as Hinv.
  { induction es as [|e es IH]; intros s Hd Hg; simpl; [exact Hg|].
    apply IH.
    - now rewrite (proj1 (handleMouseMove_frame LocalTZA addMinutes p s e)).
    - destruct Hg as (g & Hg & Hdur & Hid).
      destruct (DayTimeline.containerTop s) as [rectTop|] eqn:Hc.
      + eexists.
        split;
          [apply (move_step_any LocalTZA addMinutes p s e drag g rectTop
                    Hd eq_refl Hg Hc)|].
        unfold Event.duration in *. simpl. rewrite Hn, Hadd.
        split; [lia|exact Hid].
      + unfold DayTimeline.handleMouseMove. rewrite Hd, Hg, Hc.
        now exists g. }
  apply Hinv; [reflexivity|].
  eexists. split; [reflexivity|]. split; reflexivity.
Qed.

Lemma move_session_keeps_duration_witness :
  exists ghost,
    DayTimeline.ghostEvent
      (DayTimeline.handleMouseMoves Fixture.hostUTC DateFns.addMinutes
         Fixture.props
         (DayTimeline.handleMouseDown Fixture.idle (Fixture.pointerAt 640)
                                      Fixture.nine)
         [Fixture.pointerAt 160; Fixture.pointerAt 2000])
    = Some ghost
    /\ Event.duration ghost = Event.duration Fixture.nine
    /\ Event.id ghost = Event.id Fixture.nine.
Proof.
  apply (move_session_keeps_duration Fixture.hostUTC DateFns.addMinutes
           Fixture.props Fixture.idle (Fixture.pointerAt 640) Fixture.nine
           [Fixture.pointerAt 160; Fixture.pointerAt 2000] 60).
  - exact addMinutes_addsWholeMinutes.
  - reflexivity.
  - reflexivity.
Defined.

(** X6.  A resize session begun on an event that starts before it ends
    commits, at pointer-up, an event that starts before it ends: the
    repository will not answer it with the validation error. *)
Theorem resize_commit_is_valid (LocalTZA : Z -> bool -> Z)
  (addMinutes : Z -> Q -> Z) (p : DayTimeline.Props)
  (st : DayTimeline.State) (down : DayTimeline.MouseEvent) (event : Event.t)
  (es : list DayTimeline.MouseEvent) (kind : DayTimeline.DragType) :
  Event.start event < Event.end_ event ->
  kind = DayTimeline.resize_top \/ kind = DayTimeline.resize_bottom ->
  exists committed,
    snd (DayTimeline.handleMouseUp
           (DayTimeline.handleMouseMoves LocalTZA addMinutes p
              (DayTimeline.startDrag st kind down event) es))
    = Some committed
    /\ Event.start committed < Event.end_ committed
    /\ forall events,
         fst (CalendarRepo.updateEvent committed (Some events))
         <> CalendarRepo.err "End time must be after start time"%string.
Proof.
  intros Hlt Hkind.
  destruct (resize_moves_ordered LocalTZA addMinutes p es
              (DayTimeline.startDrag st kind down event))
    as [(drag & Hd & _) (ghost & Hg & Hord)].
  - eexists. split; [reflexivity|exact Hkind].
  - eexists. split; [reflexivity|exact Hlt].
  - exists ghost. unfold DayTimeline.handleMouseUp. rewrite Hd, Hg.
    split; [reflexivity|]. split; [exact Hord|].
    intros events. simpl.
    destruct (Z.geb_spec (Event.start ghost) (Event.end_ ghost)); [lia|].
    destruct (JS.findIndex _ events); discriminate.
Qed.

Lemma resize_commit_is_valid_witness :
  exists committed,
    snd (DayTimeline.handleMouseUp
           (DayTimeline.handleMouseMoves Fixture.hostUTC DateFns.addMinutes
              Fixture.props
              (DayTimeline.startDrag Fixture.idle DayTimeline.resize_bottom
                 (Fixture.pointerAt 800) Fixture.nine)
              [Fixture.pointerAt 0; Fixture.pointerAt 880]))
    = Some committed
    /\ Event.start committed < Event.end_ committed
    /\ forall events,
         fst (CalendarRepo.updateEvent committed (Some events))
         <> CalendarRepo.err "End time must be after start time"%string.
Proof.
  apply (resize_commit_is_valid Fixture.hostUTC DateFns.addMinutes
           Fixture.props Fixture.idle
           (Fixture.pointerAt 800) Fixture.nine
           [Fixture.pointerAt 0; Fixture.pointerAt 880]
           DayTimeline.resize_bottom).
  - reflexivity.
  - right. reflexivity.
Defined.

(** ** What [addMinutes] does to the duration *)

(** Cutting the amount to whole minutes loses the seconds: half a minute is
    not added at all. *)
Example addMinutes_drops_seconds :
  DateFns.addMinutes (Fixture.utc 9 0)
    (inject_Z 30000 / inject_Z (1000 * 60))%Q
  = Fixture.utc 9 0.
Proof. reflexivity. Qed.

(** X25.  What a move does to the duration.  A pointer move of a move
    session puts the ghost's start at the instant under the pointer and its
    end the original duration, cut toward zero to whole minutes, later.  The
    ghost lasts as long as the original exactly when the original lasts a
    whole number of minutes. *)
Theorem move_cuts_duration_to_whole_minutes (LocalTZA : Z -> bool -> Z)
  (p : DayTimeline.Props) (st : DayTimeline.State)
  (e : DayTimeline.MouseEvent) (drag : DayTimeline.Dragging)
  (ghost : Event.t) (rectTop : Q) :
  DayTimeline.dragging st = Some drag ->
  DayTimeline.type drag = DayTimeline.move ->
  DayTimeline.ghostEvent st = Some ghost ->
  DayTimeline.containerTop st = Some rectTop ->
  exists ghost',
    DayTimeline.ghostEvent
      (DayTimeline.handleMouseMove LocalTZA DateFns.addMinutes p st e)
    = Some ghost'
    /\ Event.start ghost' = pointerDate LocalTZA p rectTop e
    /\ Event.duration ghost'
       = Z.quot (DayTimeline.originalEnd drag - DayTimeline.originalStart drag)
                60000 * 60000
    /\ (Event.duration ghost'
        = DayTimeline.originalEnd drag - DayTimeline.originalStart drag
        <-> Z.rem (DayTimeline.originalEnd drag
                   - DayTimeline.originalStart drag) 60000 = 0).
Proof.
  intros Hd Ht Hg Hc. eexists.
  split;
    [apply (move_step_any LocalTZA DateFns.addMinutes p st e drag ghost
              rectTop Hd Ht Hg Hc)|].
  unfold Event.duration, DateFns.addMinutes. cbv zeta. simpl Event.start.
  simpl Event.end_. rewrite toInteger_minutes.
  set (d := DayTimeline.originalEnd drag - DayTimeline.originalStart drag).
  pose proof (Z.quot_rem' d 60000) as Hqr. unfold JS.msPerMinute.
  split; [reflexivity|]. split; [lia|]. split; lia.
Qed.

Lemma move_cuts_duration_to_whole_minutes_witness :
  exists ghost',
    DayTimeline.ghostEvent
      (DayTimeline.handleMouseMove Fixture.hostUTC DateFns.addMinutes
         Fixture.props
         (DayTimeline.handleMouseDown Fixture.idle (Fixture.pointerAt 640)
            (Fixture.ev "s" (Fixture.utc 9 0) (Fixture.utc 9 0 + 90000)))
         (Fixture.pointerAt 160))
    = Some ghost'
    /\ Event.start ghost'
       = pointerDate Fixture.hostUTC Fixture.props 100 (Fixture.pointerAt 160)
    /\ Event.duration ghost' = Z.quot 90000 60000 * 60000.
Proof.
  destruct (move_cuts_duration_to_whole_minutes Fixture.hostUTC Fixture.props
              (DayTimeline.handleMouseDown Fixture.idle (Fixture.pointerAt 640)
                 (Fixture.ev "s" (Fixture.utc 9 0) (Fixture.utc 9 0 + 90000)))
              (Fixture.pointerAt 160)
              (DayTimeline.mkDragging (Some "s"%string) DayTimeline.move
                 (Fixture.utc 9 0) (Fixture.utc 9 0 + 90000) (100 + 640)%Q)
              (Fixture.ev "s" (Fixture.utc 9 0) (Fixture.utc 9 0 + 90000))
              100%Q eq_refl eq_refl eq_refl eq_refl)
    as (ghost' & H1 & H2 & H3 & _).
  exists ghost'. split; [exact H1|]. split; [exact H2|exact H3].
Defined.

(** X8.  Whatever the release of the package, a move keeps the duration of
    an event that lasts a whole number of minutes. *)
Theorem move_keeps_whole_minutes (LocalTZA : Z -> bool -> Z)
  (addMinutes : Z -> Q -> Z) (p : DayTimeline.Props)
  (st : DayTimeline.State) (e : DayTimeline.MouseEvent)
  (drag : DayTimeline.Dragging) (ghost : Event.t) (rectTop : Q) (n : Z) :
  addsWholeMinutes addMinutes ->
  DayTimeline.originalEnd drag - DayTimeline.originalStart drag = n * 60000 ->
  DayTimeline.dragging st = Some drag ->
  DayTimeline.type drag = DayTimeline.move ->
  DayTimeline.ghostEvent st = Some ghost ->
  DayTimeline.containerTop st = Some rectTop ->
  exists ghost',
    DayTimeline.ghostEvent
      (DayTimeline.handleMouseMove LocalTZA addMinutes p st e)
    = Some ghost'
    /\ Event.duration ghost'
       = DayTimeline.originalEnd drag - DayTimeline.originalStart drag.
Proof.
  intros Hadd Hn Hd Ht Hg Hc. eexists. split.
  - apply (move_step LocalTZA addMinutes p st e drag ghost rectTop
             Hd Ht Hg Hc).
    rewrite Hn. apply Hadd.
  - unfold Event.duration. simpl. lia.
Qed.

Lemma move_keeps_whole_minutes_witness :
  exists ghost',
    DayTimeline.ghostEvent
      (DayTimeline.handleMouseMove Fixture.hostUTC DateFns.addMinutes
         Fixture.props Fixture.moveSession (Fixture.pointerAt 160))
    = Some ghost'
    /\ Event.duration ghost' = Fixture.utc 10 0 - Fixture.utc 9 0.
Proof.
  apply (move_keeps_whole_minutes Fixture.hostUTC DateFns.addMinutes
           Fixture.props Fixture.moveSession (Fixture.pointerAt 160)
           (DayTimeline.mkDragging (Some "a"%string) DayTimeline.move
              (Fixture.utc 9 0) (Fixture.utc 10 0) (100 + 640)%Q)
           Fixture.nine 100%Q 60).
  - exact addMinutes_addsWholeMinutes.
  - reflexivity.
  - reflexivity.
  - reflexivity.
  - reflexivity.
  - reflexivity.
Defined.

(* ------------------------------------------------------------------------- *)
(** * The grid and the scroll position *)
(* ------------------------------------------------------------------------- *)

Lemma slotValue_whole (s : DayTimeline.SlotMinutes) :
  DayTimeline.slotValue s = inject_Z (DayTimeline.slotWhole s).
Proof. destruct s; reflexivity. Qed.

Lemma slotWhole_pos (s : DayTimeline.SlotMinutes) :
  1 <= DayTimeline.slotWhole s.
Proof. destruct s; simpl; lia. Qed.

(** The loop test at the [k]-th multiple of the slot. *)
Lemma gridLoop_test (p : DayTimeline.Props) (k : Z) :
  Qle_bool (inject_Z (k * DayTimeline.slotWhole (DayTimeline.slotMinutes p)))
           ((DayTimeline.endHour p - DayTimeline.startHour p) * 60) = true
  <-> k <= Qfloor ((DayTimeline.endHour p - DayTimeline.startHour p) * 60
                   / DayTimeline.slotValue (DayTimeline.slotMinutes p)).
Proof.
  set (total := ((DayTimeline.endHour p - DayTimeline.startHour p) * 60)%Q).
  pose proof (slotValue_pos (DayTimeline.slotMinutes p)) as Hpos.
  rewrite Qle_bool_iff, inject_Z_mult, <- slotValue_whole.
  split; intros H.
  - rewrite <- (Qfloor_Z k). apply Qfloor_resp_le.
    apply Qle_shift_div_l; assumption.
  - apply Qle_trans
      with (inject_Z (Qfloor (total / DayTimeline.slotValue
                                        (DayTimeline.slotMinutes p)))
            * DayTimeline.slotValue (DayTimeline.slotMinutes p))%Q.
    + apply Qmult_le_compat_r; [now rewrite <- Zle_Qle|now apply Qlt_le_weak].
    + apply Qle_trans
        with (total / DayTimeline.slotValue (DayTimeline.slotMinutes p)
              * DayTimeline.slotValue (DayTimeline.slotMinutes p))%Q.
      * apply Qmult_le_compat_r; [apply Qfloor_le|now apply Qlt_le_weak].
      * assert (total / DayTimeline.slotValue (DayTimeline.slotMinutes p)
                * DayTimeline.slotValue (DayTimeline.slotMinutes p)
                == total)%Q as ->; [|apply Qle_refl].
        field. intros E. rewrite E in Hpos. discriminate.
Qed.

Lemma gridLoop_closed (p : DayTimeline.Props) (fuel : nat) :
  forall k : nat,
    Qfloor ((DayTimeline.endHour p - DayTimeline.startHour p) * 60
            / DayTimeline.slotValue (DayTimeline.slotMinutes p))
    + 1 - Z.of_nat k <= Z.of_nat fuel ->
    DayTimeline.gridLoop p fuel
      (Z.of_nat k * DayTimeline.slotWhole (DayTimeline.slotMinutes p))
    = map (fun j => DayTimeline.gridLine
                      (Z.of_nat j
                       * DayTimeline.slotWhole (DayTimeline.slotMinutes p)))
          (seq k (Z.to_nat
                    (Qfloor ((DayTimeline.endHour p - DayTimeline.startHour p)
                             * 60
                             / DayTimeline.slotValue
                                 (DayTimeline.slotMinutes p))
                     + 1 - Z.of_nat k))).
Proof.
  set (N := Qfloor ((DayTimeline.endHour p - DayTimeline.startHour p) * 60
                    / DayTimeline.slotValue (DayTimeline.slotMinutes p))).
  induction fuel as [|fuel IH]; intros k Hfuel.
  - replace (Z.to_nat (N + 1 - Z.of_nat k)) with 0%nat by lia. reflexivity.
  - cbn [DayTimeline.gridLoop].
    destruct (Qle_bool _ _) eqn:Htest.
    + apply gridLoop_test in Htest. fold N in Htest.
      replace (Z.to_nat (N + 1 - Z.of_nat k))
        with (S (Z.to_nat (N + 1 - Z.of_nat (S k)))) by lia.
      cbn [seq map]. f_equal.
      replace (Z.of_nat k * DayTimeline.slotWhole (DayTimeline.slotMinutes p)
               + DayTimeline.slotWhole (DayTimeline.slotMinutes p))
        with (Z.of_nat (S k)
              * DayTimeline.slotWhole (DayTimeline.slotMinutes p)) by lia.
      apply IH. lia.
    + assert (~ Z.of_nat k <= N) as Hk.
      { intros H. apply gridLoop_test in H. congruence. }
      replace (Z.to_nat (N + 1 - Z.of_nat k)) with 0%nat by lia. reflexivity.
Qed.

Lemma renderGrid_closed (p : DayTimeline.Props) :
  DayTimeline.renderGrid p
  = map (fun j => DayTimeline.gridLine
                    (Z.of_nat j
                     * DayTimeline.slotWhole (DayTimeline.slotMinutes p)))
        (seq 0 (Z.to_nat
                  (Qfloor ((DayTimeline.endHour p - DayTimeline.startHour p)
                           * 60
                           / DayTimeline.slotValue (DayTimeline.slotMinutes p))
                   + 1))).
Proof.
  set (total := ((DayTimeline.endHour p - DayTimeline.startHour p) * 60)%Q).
  set (slot := DayTimeline.slotMinutes p).
  set (N := Qfloor (total / DayTimeline.slotValue slot)).
  unfold DayTimeline.renderGrid. fold total.
  pose proof (gridLoop_closed p (Z.to_nat (Qfloor total) + 1) 0) as H.
  fold total slot N in H. change (Z.of_nat 0) with 0 in H.
  rewrite Z.sub_0_r in H. apply H.
  destruct (Z.le_gt_cases 0 N) as [HN|HN]; [|lia].
  assert (N <= Qfloor total); [|lia].
  apply Qfloor_resp_le.
  assert (0 <= total / DayTimeline.slotValue slot)%Q as H0.
  { apply Qnot_lt_le. intros Hneg.
    assert (N <= -1); [|lia].
    assert (N < 0); [|lia].
    rewrite Zlt_Qlt. eapply Qle_lt_trans; [apply Qfloor_le|exact Hneg]. }
  pose proof (slotValue_pos slot) as Hpos.
  apply Qle_shift_div_r; [exact Hpos|].
  assert (0 <= total)%Q as Ht.
  { setoid_replace total
      with (total / DayTimeline.slotValue slot
            * DayTimeline.slotValue slot)%Q.
    - apply Qmult_le_0_compat; [exact H0|now apply Qlt_le_weak].
    - field. intros Ez. rewrite Ez in Hpos. discriminate. }
  setoid_replace total with (1 * total)%Q at 1 by ring.
  rewrite (Qmult_comm total). apply Qmult_le_compat_r; [|exact Ht].
  rewrite slotValue_whole.
  change 1%Q with (inject_Z 1). rewrite <- Zle_Qle. apply slotWhole_pos.
Qed.

(** X16.  The grid has one 40px row for every multiple of [slotMinutes] from
    0 up to [(endHour - startHour) * 60], both included, in this order, and
    no other row: [floor((endHour - startHour) * 60 / slotMinutes) + 1] rows
    (none when [endHour] is before [startHour]).  The row of key [i] carries
    the hour [floor(i / 60)] and the minute [i % 60], and shows its label
    exactly when the minute is 0. *)
Theorem renderGrid_rows (p : DayTimeline.Props) :
  let rows :=
    Z.to_nat (Qfloor ((DayTimeline.endHour p - DayTimeline.startHour p) * 60
                      / DayTimeline.slotValue (DayTimeline.slotMinutes p))
              + 1) in
  DayTimeline.renderGrid p
  = map (fun j => DayTimeline.gridLine
                    (Z.of_nat j
                     * DayTimeline.slotWhole (DayTimeline.slotMinutes p)))
        (seq 0 rows)
  /\ length (DayTimeline.renderGrid p) = rows
  /\ forall line, In line (DayTimeline.renderGrid p) ->
       0 <= DayTimeline.key line
       /\ (inject_Z (DayTimeline.key line)
           <= (DayTimeline.endHour p - DayTimeline.startHour p) * 60)%Q
       /\ DayTimeline.hour line * 60 + DayTimeline.minute line
          = DayTimeline.key line
       /\ 0 <= DayTimeline.minute line < 60
       /\ (DayTimeline.labelled line = true <-> DayTimeline.minute line = 0).
Proof.
  cbv zeta.
  set (total := ((DayTimeline.endHour p - DayTimeline.startHour p) * 60)%Q).
  set (slot := DayTimeline.slotMinutes p).
  set (N := Qfloor (total / DayTimeline.slotValue slot)).
  pose proof (renderGrid_closed p) as E. fold total slot N in E.
  split; [exact E|]. split.
  { rewrite E, length_map. apply length_seq. }
  intros line Hin. rewrite E in Hin. apply in_map_iff in Hin
    as (j & <- & Hj). apply in_seq in Hj.
  assert (0 <= Z.of_nat j * DayTimeline.slotWhole slot) as Hkey
    by (pose proof (slotWhole_pos slot); nia).
  unfold DayTimeline.gridLine. simpl.
  split; [exact Hkey|]. split.
  { apply Qle_bool_iff. apply gridLoop_test. fold total slot N. lia. }
  rewrite Z.rem_mod_nonneg by lia.
  split; [Z.div_mod_to_equations; lia|].
  split; [apply Z.mod_pos_bound; lia|].
  apply Z.eqb_eq.
Qed.

(** X17.  The hour labels sit where the events are drawn.  With whole start
    and end hours, every whole hour [h] of the window has a labelled row,
    carrying the hour [h - startHour] and the minute 0, and that row begins
    (40px per row) exactly at the offset [top] gives an event that starts at
    [h]:00. *)
Theorem hour_rows_line_up (p : DayTimeline.Props) (sh eh h : Z) :
  (DayTimeline.startHour p == inject_Z sh)%Q ->
  (DayTimeline.endHour p == inject_Z eh)%Q ->
  sh <= h <= eh ->
  exists (n : nat) (line : DayTimeline.GridLine),
    nth_error (DayTimeline.renderGrid p) n = Some line
    /\ DayTimeline.labelled line = true
    /\ DayTimeline.hour line = h - sh
    /\ DayTimeline.minute line = 0
    /\ (inject_Z (Z.of_nat n) * 40
        == DayTimeline.top p
             (inject_Z (h * 60) - DayTimeline.startHour p * 60))%Q.
Proof.
  intros Hsh Heh Hh.
  set (slot := DayTimeline.slotMinutes p).
  set (per := 60 / DayTimeline.slotWhole slot).
  assert (per * DayTimeline.slotWhole slot = 60 /\ 0 < per) as [Hper Hpos]
    by (unfold per; destruct slot; simpl; split; reflexivity).
  assert (inject_Z per * inject_Z (DayTimeline.slotWhole slot) == 60)%Q as Hq
    by (now rewrite <- inject_Z_mult, Hper).
  assert (~ inject_Z (DayTimeline.slotWhole slot) == 0)%Q as Hnz.
  { rewrite <- slotValue_whole. intros Ez.
    pose proof (slotValue_pos slot) as Hlt. rewrite Ez in Hlt.
    discriminate. }
  assert (Qfloor ((DayTimeline.endHour p - DayTimeline.startHour p) * 60
                  / DayTimeline.slotValue slot)
          = (eh - sh) * per) as HN.
  { rewrite <- (Qfloor_Z ((eh - sh) * per)). apply Qfloor_comp.
    rewrite Hsh, Heh, slotValue_whole.
    unfold Zminus. rewrite !inject_Z_mult, inject_Z_plus, inject_Z_opp.
    rewrite <- Hq. now field. }
  exists (Z.to_nat ((h - sh) * per)),
    (DayTimeline.gridLine ((h - sh) * 60)).
  split.
  { rewrite renderGrid_closed. fold slot. rewrite HN.
    replace ((h - sh) * 60)
      with (Z.of_nat (Z.to_nat ((h - sh) * per))
            * DayTimeline.slotWhole slot) by nia.
    apply map_nth_error with (f := fun j => DayTimeline.gridLine
                                   (Z.of_nat j * DayTimeline.slotWhole slot)).
    rewrite nth_error_nth' with (d := 0%nat) by (rewrite length_seq; nia).
    rewrite seq_nth by nia. reflexivity. }
  unfold DayTimeline.gridLine. simpl.
  rewrite Z.rem_mod_nonneg by lia.
  rewrite Z.mod_mul, Z.div_mul by discriminate.
  split; [reflexivity|]. split; [reflexivity|]. split; [reflexivity|].
  unfold DayTimeline.top. fold slot. rewrite Hsh, slotValue_whole.
  rewrite Z2Nat.id by nia.
  rewrite !inject_Z_mult. unfold Zminus.
  rewrite inject_Z_plus, inject_Z_opp.
  change (inject_Z 60) with 60%Q. rewrite <- Hq. now field.
Qed.

Lemma hour_rows_line_up_witness :
  exists (n : nat) (line : DayTimeline.GridLine),
    nth_error (DayTimeline.renderGrid Fixture.props) n = Some line
    /\ DayTimeline.labelled line = true
    /\ DayTimeline.hour line = 9 - 5
    /\ DayTimeline.minute line = 0
    /\ (inject_Z (Z.of_nat n) * 40
        == DayTimeline.top Fixture.props
             (inject_Z (9 * 60) - DayTimeline.startHour Fixture.props * 60))%Q.
Proof.
  apply (hour_rows_line_up Fixture.props 5 23 9).
  - reflexivity.
  - reflexivity.
  - lia.
Defined.

Lemma setHours_fixed_offset (off t : Z) (hour : Q) :
  JS.setHours (fun _ _ => off) t hour 0 0 0
  = JS.Day (t + off) * JS.msPerDay + JS.toInteger hour * JS.msPerHour - off.
Proof.
  unfold JS.setHours, JS.LocalTime, JS.UTC, JS.MakeDate, JS.MakeTime.
  change (JS.toInteger 0) with 0. lia.
Qed.

(** X18.  Where the timeline scrolls.  In a zone of fixed offset, with
    [startOfDay] giving the local midnight of its argument, the effect sets
    [scrollTop] to [(540 / slotMinutes) * 40] whenever the container is
    attached: the offset of 09:00 counted from midnight, whatever the events,
    the first event's time, the day shown and [startHour]. *)
Theorem scroll_position_is_nine_hours (off : Z) (startOfDay : Z -> Z)
  (p : DayTimeline.Props) (events : list Event.t) (st : DayTimeline.State) :
  givesLocalMidnight (fun _ _ => off) startOfDay ->
  DayTimeline.containerTop st <> None ->
  exists px,
    DayTimeline.scrollToTime (fun _ _ => off) startOfDay p events st = Some px
    /\ (px == 540 / DayTimeline.slotValue (DayTimeline.slotMinutes p) * 40)%Q.
Proof.
  intros Hday Hattached. unfold DayTimeline.scrollToTime.
  destruct (DayTimeline.containerTop st) as [rectTop|]; [|congruence].
  eexists. split; [reflexivity|]. cbv zeta.
  set (target := match match events with
                       | [] => None
                       | first :: _ => Some (Event.start first)
                       end with
                 | Some date => date
                 | None => DayTimeline.dateISO p
                 end).
  rewrite Hday, !setHours_fixed_offset.
  change (JS.toInteger 9) with 9. change (JS.toInteger 0) with 0.
  set (D := JS.Day (target + off)).
  assert (JS.Day (D * JS.msPerDay + 9 * JS.msPerHour - off + off) = D) as ->.
  { unfold JS.Day, JS.msPerDay, JS.msPerHour.
    symmetry. apply Z.div_unique with (9 * 3600000); lia. }
  replace (D * JS.msPerDay + 9 * JS.msPerHour - off
           - (D * JS.msPerDay + 0 * JS.msPerHour - off))
    with 32400000 by (unfold JS.msPerHour; lia).
  destruct (DayTimeline.slotMinutes p); reflexivity.
Qed.

Lemma scroll_position_is_nine_hours_witness :
  exists px,
    DayTimeline.scrollToTime Fixture.hostPlusOne
      (fun date => JS.setHours Fixture.hostPlusOne date 0 0 0 0)
      Fixture.props Fixture.events Fixture.idle = Some px
    /\ (px == 540 / 15 * 40)%Q.
Proof.
  apply (scroll_position_is_nine_hours 3600000
           (fun date => JS.setHours Fixture.hostPlusOne date 0 0 0 0)
           Fixture.props Fixture.events Fixture.idle).
  - intros date. reflexivity.
  - discriminate.
Defined.

Lemma whole_minutes_same_day (s e n : Z) :
  e - s = n * 60000 -> JS.Day s = JS.Day e ->
  JS.HourFromTime e * 60 + JS.MinFromTime e
  - (JS.HourFromTime s * 60 + JS.MinFromTime s) = n.
Proof.
  unfold JS.Day, JS.HourFromTime, JS.MinFromTime, JS.msPerDay, JS.msPerHour,
    JS.msPerMinute.
  intros Hn Hday. Z.div_mod_to_equations. lia.
Qed.

(** X24.  How tall an event is drawn.  In a zone of fixed offset, an event
    that starts and ends on the same local day and lasts [n] whole minutes
    is drawn [(n / slotMinutes) * 40] pixels high, but never less than 40:
    an event shorter than one slot takes the height of a whole slot. *)
Theorem card_height_follows_duration (off : Z) (p : DayTimeline.Props)
  (event : Event.t) (n : Z) :
  Event.end_ event - Event.start event = n * 60000 ->
  JS.Day (Event.start event + off) = JS.Day (Event.end_ event + off) ->
  (DayTimeline.cardHeight (fun _ _ => off) p event
   == Qmax 40 (inject_Z n / DayTimeline.slotValue (DayTimeline.slotMinutes p)
               * 40))%Q
  /\ (40 <= DayTimeline.cardHeight (fun _ _ => off) p event)%Q.
Proof.
  intros Hn Hday. split; [|apply Q.le_max_l].
  unfold DayTimeline.cardHeight, DayTimeline.height, DayTimeline.startMinutes,
    JS.getHours, JS.getMinutes, JS.LocalTime. cbv zeta.
  assert (Event.end_ event + off - (Event.start event + off) = n * 60000)
    as Hn' by lia.
  pose proof (whole_minutes_same_day _ _ n Hn' Hday) as Hm.
  set (me := JS.HourFromTime (Event.end_ event + off) * 60
             + JS.MinFromTime (Event.end_ event + off)) in *.
  set (ms := JS.HourFromTime (Event.start event + off) * 60
             + JS.MinFromTime (Event.start event + off)) in *.
  assert (inject_Z me - DayTimeline.startHour p * 60
          - (inject_Z ms - DayTimeline.startHour p * 60) == inject_Z n)%Q
    as ->; [|reflexivity].
  rewrite <- Hm. unfold Zminus. rewrite inject_Z_plus, inject_Z_opp. ring.
Qed.

Lemma card_height_follows_duration_witness :
  (DayTimeline.cardHeight Fixture.hostPlusOne Fixture.props
     Fixture.half_past_nine
   == Qmax 40 (inject_Z 15 / 15 * 40))%Q.
Proof.
  apply (card_height_follows_duration 3600000 Fixture.props
           Fixture.half_past_nine 15); reflexivity.
Defined.

(* ------------------------------------------------------------------------- *)
(** * Sessions, clicks and the repository *)
(* ------------------------------------------------------------------------- *)

Lemma perform_keeps_ghost_with_session (LocalTZA : Z -> bool -> Z)
  (addMinutes : Z -> Q -> Z) (p : DayTimeline.Props)
  (st : DayTimeline.State) (g : Gesture) :
  (DayTimeline.dragging st = None <-> DayTimeline.ghostEvent st = None) ->
  (DayTimeline.dragging (perform LocalTZA addMinutes p st g) = None
   <-> DayTimeline.ghostEvent (perform LocalTZA addMinutes p st g) = None)
  /\ DayTimeline.containerTop (perform LocalTZA addMinutes p st g)
     = DayTimeline.containerTop st.
Proof.
  intros Hinv. destruct g as [e event|e event|e event|e|]; simpl.
  - unfold DayTimeline.handleMouseDown.
    destruct (negb (DayTimeline.button e =? 0)); [now split|].
    simpl. split; [split; discriminate|reflexivity].
  - split; [split; discriminate|reflexivity].
  - split; [split; discriminate|reflexivity].
  - destruct st as [[d|] [gh|] [c|]]; simpl in *; split;
      try exact Hinv; try reflexivity.
    split; discriminate.
  - destruct st as [[d|] [gh|] c]; simpl in *; split;
      try exact Hinv; try reflexivity.
    now split.
Qed.

(** X19.  The ghost is there exactly while a session is open.  From a state
    in which this holds (the component at rest is one), it holds after any
    sequence of presses on events and handles, pointer moves and releases;
    no gesture changes the container; and a release always leaves the
    component at rest. *)
Theorem ghost_exactly_while_dragging (LocalTZA : Z -> bool -> Z)
  (addMinutes : Z -> Q -> Z) (p : DayTimeline.Props)
  (gestures : list Gesture) (st : DayTimeline.State) :
  (DayTimeline.dragging st = None <-> DayTimeline.ghostEvent st = None) ->
  let st' := fold_left (perform LocalTZA addMinutes p) gestures st in
  (DayTimeline.dragging st' = None <-> DayTimeline.ghostEvent st' = None)
  /\ DayTimeline.containerTop st' = DayTimeline.containerTop st
  /\ DayTimeline.dragging
       (perform LocalTZA addMinutes p st' ReleasePointer) = None
  /\ DayTimeline.ghostEvent
       (perform LocalTZA addMinutes p st' ReleasePointer) = None.
Proof.
  cbv zeta. revert st.
  induction gestures as [|g gestures IH]; intros st Hinv.
  - simpl fold_left. split; [exact Hinv|]. split; [reflexivity|].
    destruct st as [[d|] [gh|] c]; simpl in *; auto;
      try (now apply Hinv); split; auto; now apply Hinv.
  - simpl fold_left.
    destruct (perform_keeps_ghost_with_session LocalTZA addMinutes p st g Hinv)
      as [Hinv' Hc].
    destruct (IH _ Hinv') as (H1 & H2 & H3 & H4).
    split; [exact H1|]. split; [now rewrite H2|]. now split.
Qed.

Lemma ghost_exactly_while_dragging_witness :
  let st' :=
    fold_left (perform Fixture.hostUTC DateFns.addMinutes Fixture.props)
      [MovePointer (Fixture.pointerAt 10);
       PressEvent (Fixture.pointerAt 640) Fixture.nine;
       MovePointer (Fixture.pointerAt 160);
       ReleasePointer;
       PressTopHandle (Fixture.pointerAt 640) Fixture.nine]
      Fixture.idle in
  DayTimeline.dragging st' = None <-> DayTimeline.ghostEvent st' = None.
Proof.
  apply (ghost_exactly_while_dragging Fixture.hostUTC DateFns.addMinutes
           Fixture.props
           [MovePointer (Fixture.pointerAt 10);
            PressEvent (Fixture.pointerAt 640) Fixture.nine;
            MovePointer (Fixture.pointerAt 160);
            ReleasePointer;
            PressTopHandle (Fixture.pointerAt 640) Fixture.nine]
           Fixture.idle).
  split; reflexivity.
Defined.

Lemma setIndex_found_itself (event : Event.t) (events : list Event.t) :
  NoDup (map Event.id events) -> In event events ->
  forall index,
    JS.findIndex (fun e => String.eqb (Event.id e) (Event.id event)) events
    = Some index ->
    JS.setIndex index event events = events.
Proof.
  induction events as [|x l IH]; intros Hnd Hin index; simpl;
    [discriminate|].
  inversion Hnd as [|? ? Hx Hl]; subst.
  destruct (String.eqb_spec (Event.id x) (Event.id event)) as [E|E].
  - intros [= <-]. simpl. f_equal.
    destruct Hin as [Heq|Hin]; [now symmetry|].
    exfalso. apply Hx. rewrite E. now apply in_map.
  - destruct Hin as [Heq|Hin]; [now subst|].
    destruct (JS.findIndex _ l) as [k|]; simpl; [|discriminate].
    intros [= <-]. simpl. f_equal. now apply IH.
Qed.

(** X20.  A click without a move.  Pressing the left button on an event and
    releasing it without moving the pointer hands [onUpdate] the event
    exactly as it was; and when stored ids are distinct, updating the store
    with an event that is stored as such leaves the store as it was. *)
Theorem click_commits_event_unchanged (st : DayTimeline.State)
  (e : DayTimeline.MouseEvent) (event : Event.t) (events : list Event.t) :
  DayTimeline.button e = 0 ->
  NoDup (map Event.id events) -> In event events ->
  snd (DayTimeline.handleMouseUp (DayTimeline.handleMouseDown st e event))
  = Some event
  /\ snd (CalendarRepo.updateEvent event (Some events)) = Some events.
Proof.
  intros Hleft Hnd Hin. split.
  - unfold DayTimeline.handleMouseDown. rewrite Hleft. simpl.
    now destruct event.
  - simpl. destruct (Event.start event >=? Event.end_ event); [reflexivity|].
    destruct (JS.findIndex _ events) as [index|] eqn:Hfind; [|reflexivity].
    simpl. f_equal. now apply setIndex_found_itself.
Qed.

Lemma click_commits_event_unchanged_witness :
  snd (DayTimeline.handleMouseUp
         (DayTimeline.handleMouseDown Fixture.idle (Fixture.pointerAt 640)
                                      Fixture.nine))
  = Some Fixture.nine
  /\ snd (CalendarRepo.updateEvent Fixture.nine (Some Fixture.events))
     = Some Fixture.events.
Proof.
  apply (click_commits_event_unchanged Fixture.idle (Fixture.pointerAt 640)
           Fixture.nine Fixture.events).
  - reflexivity.
  - repeat constructor; simpl; intuition discriminate.
  - now left.
Defined.

(** X21.  A click on empty space.  With the container attached and an
    [addMinutes] that adds 30 minutes when asked to, a click on the grid
    itself hands [onCreate] a draft titled [New Event] that starts at the
    instant under the pointer and ends 30 minutes later; [createEvent]
    accepts this draft and appends it to any store.  A click that reaches
    the grid through a child, or a grid that is not attached, creates
    nothing. *)
Theorem empty_click_creates_half_hour_event (LocalTZA : Z -> bool -> Z)
  (addMinutes : Z -> Q -> Z) (p : DayTimeline.Props)
  (st : DayTimeline.State) (e : DayTimeline.MouseEvent) (rectTop : Q)
  (uuid : string) (stored : CalendarRepo.LocalStorage) :
  (forall date, addMinutes date 30%Q = date + 30 * JS.msPerMinute) ->
  DayTimeline.containerTop st = Some rectTop ->
  let start := pointerDate LocalTZA p rectTop e in
  let draft := Draft.mk "New Event" start (start + 1800000) None None in
  DayTimeline.handleEmptySpaceClick LocalTZA addMinutes p st true e
  = Some draft
  /\ CalendarRepo.createEvent uuid draft stored
     = (CalendarRepo.ok
          (Event.mk uuid "New Event" start (start + 1800000) None None),
        Some (CalendarRepo.storedEvents stored
              ++ [Event.mk uuid "New Event" start (start + 1800000)
                           None None]))
  /\ DayTimeline.handleEmptySpaceClick LocalTZA addMinutes p st false e = None
  /\ DayTimeline.handleEmptySpaceClick LocalTZA addMinutes p
       (DayTimeline.mkState (DayTimeline.dragging st)
                            (DayTimeline.ghostEvent st) None)
       true e = None.
Proof.
  intros Hadd Hc. cbv zeta. split.
  - unfold DayTimeline.handleEmptySpaceClick, pointerDate. rewrite Hc.
    cbv zeta. rewrite Hadd. reflexivity.
  - split; [|split; reflexivity].
    rewrite createEvent_valid by (simpl; lia). reflexivity.
Qed.

Lemma empty_click_creates_half_hour_event_witness :
  DayTimeline.handleEmptySpaceClick Fixture.hostUTC DateFns.addMinutes
    Fixture.props Fixture.idle true (Fixture.pointerAt 160)
  = Some (Draft.mk "New Event"
            (pointerDate Fixture.hostUTC Fixture.props 100
                         (Fixture.pointerAt 160))
            (pointerDate Fixture.hostUTC Fixture.props 100
                         (Fixture.pointerAt 160) + 1800000)
            None None).
Proof.
  apply (empty_click_creates_half_hour_event Fixture.hostUTC
           DateFns.addMinutes Fixture.props Fixture.idle
           (Fixture.pointerAt 160) 100 "u" None).
  - intros date. reflexivity.
  - reflexivity.
Defined.

(* ------------------------------------------------------------------------- *)
(** * The event counts of the month grid *)
(* ------------------------------------------------------------------------- *)

Lemma lookup_set_same (k v : Z) (counts : MonthGrid.Counts) :
  MonthGrid.lookup k (MonthGrid.set k v counts) = Some v.
Proof.
  induction counts as [|[k' v'] rest IH]; simpl.
  - now rewrite Z.eqb_refl.
  - destruct (Z.eqb_spec k' k) as [E|E]; simpl.
    + now rewrite Z.eqb_refl.
    + destruct (Z.eqb_spec k' k); [contradiction|exact IH].
Qed.

Lemma lookup_set_other (k k' v : Z) (counts : MonthGrid.Counts) :
  k <> k' ->
  MonthGrid.lookup k' (MonthGrid.set k v counts) = MonthGrid.lookup k' counts.
Proof.
  intros Hk. induction counts as [|[k0 v0] rest IH]; simpl.
  - destruct (Z.eqb_spec k k'); [contradiction|reflexivity].
  - destruct (Z.eqb_spec k0 k) as [E|E]; simpl.
    + subst k0. destruct (Z.eqb_spec k k'); [contradiction|reflexivity].
    + destruct (Z.eqb_spec k0 k'); [reflexivity|exact IH].
Qed.

(** After the first loop a key is present, with count 0, exactly when it is
    the key of one of the cells. *)
Lemma cells_lookup (allDays : list Z) (k : Z) :
  forall counts : MonthGrid.Counts,
    MonthGrid.lookup k
      (fold_left (fun counts day => MonthGrid.set (MonthGrid.dayISO day) 0
                                                  counts)
                 allDays counts)
    = if existsb (fun day => MonthGrid.dayISO day =? k) allDays
      then Some 0
      else MonthGrid.lookup k counts.
Proof.
  induction allDays as [|day rest IH]; intros counts; simpl; [reflexivity|].
  rewrite IH. destruct (Z.eqb_spec (MonthGrid.dayISO day) k) as [E|E]; simpl.
  - rewrite E, lookup_set_same. now destruct (existsb _ rest).
  - now rewrite lookup_set_other.
Qed.

(** The second loop adds, to a key that is present, the number of events
    whose start has that key; it adds no key. *)
Lemma events_lookup (events : list Event.t) (k : Z) :
  forall counts : MonthGrid.Counts,
    MonthGrid.lookup k
      (fold_left (fun counts event =>
                    match MonthGrid.lookup
                            (MonthGrid.dayISO (Event.start event)) counts with
                    | Some n =>
                        MonthGrid.set (MonthGrid.dayISO (Event.start event))
                                      (n + 1) counts
                    | None => counts
                    end)
                 events counts)
    = match MonthGrid.lookup k counts with
      | Some n =>
          Some (n + Z.of_nat
                      (length
                         (filter (fun event =>
                                    MonthGrid.dayISO (Event.start event) =? k)
                                 events)))
      | None => None
      end.
Proof.
  induction events as [|event rest IH]; intros counts; simpl.
  - destruct (MonthGrid.lookup k counts); [f_equal; lia|reflexivity].
  - rewrite IH.
    destruct (Z.eqb_spec (MonthGrid.dayISO (Event.start event)) k) as [E|E].
    + rewrite E. destruct (MonthGrid.lookup k counts) as [n|] eqn:Hn.
      * rewrite lookup_set_same. f_equal. simpl length. lia.
      * now rewrite Hn.
    + destruct (MonthGrid.lookup (MonthGrid.dayISO (Event.start event))
                                 counts); [|reflexivity].
      now rewrite lookup_set_other.
Qed.

(** X22.  The number shown on a day cell is the number of events whose start
    lies on the same UTC day as the cell's date (the date's day in UTC, not
    in the host's zone), whatever the order of cells and events; a date whose
    UTC day is the day of no cell shows 0, and events on such a day are
    counted nowhere. *)
Theorem cell_counts_events_of_its_utc_day (allDays : list Z)
  (events : list Event.t) (date : Z) :
  (In date allDays ->
   MonthGrid.getDayEvents (MonthGrid.eventCounts allDays events) date
   = Z.of_nat (length (filter (startsOnDayOf date) events)))
  /\ ((forall day, In day allDays ->
                   MonthGrid.dayISO day <> MonthGrid.dayISO date) ->
      MonthGrid.getDayEvents (MonthGrid.eventCounts allDays events) date = 0).
Proof.
  assert (MonthGrid.getDayEvents (MonthGrid.eventCounts allDays events) date
          = if existsb (fun day => MonthGrid.dayISO day
                                   =? MonthGrid.dayISO date) allDays
            then Z.of_nat (length (filter (startsOnDayOf date) events))
            else 0) as E.
  { unfold MonthGrid.getDayEvents, MonthGrid.eventCounts. cbv zeta.
    rewrite events_lookup, cells_lookup. simpl MonthGrid.lookup.
    destruct (existsb _ allDays); [|reflexivity].
    rewrite Z.add_0_l. fold (startsOnDayOf date).
    destruct (Z.eqb_spec
                (Z.of_nat (length (filter (startsOnDayOf date) events))) 0)
      as [E0|_]; [now rewrite E0|reflexivity]. }
  rewrite E. split.
  - intros Hin.
    assert (existsb (fun day => MonthGrid.dayISO day
                                =? MonthGrid.dayISO date) allDays = true)
      as ->; [|reflexivity].
    apply existsb_exists. exists date. split; [exact Hin|apply Z.eqb_refl].
  - intros Hout.
    destruct (existsb _ allDays) eqn:Hex; [|reflexivity].
    apply existsb_exists in Hex as (day & Hin & Hday).
    apply Z.eqb_eq in Hday. now apply Hout in Hin.
Qed.

(** One hour east of UTC the local midnight of 2 January is 23:00 of
    1 January in UTC: an event at 10:00 local time on 2 January is not
    counted on the cell of 2 January; an event at 00:30 local time is. *)
Example cell_of_local_midnight_east_of_utc :
  let cell := Fixture.utc 24 0 - 3600000 in
  let morning := Fixture.ev "m" (Fixture.utc 33 0) (Fixture.utc 34 0) in
  let night := Fixture.ev "n" (Fixture.utc 23 30) (Fixture.utc 24 0) in
  JS.LocalTime Fixture.hostPlusOne cell = Fixture.utc 24 0
  /\ MonthGrid.getDayEvents (MonthGrid.eventCounts [cell] [morning]) cell = 0
  /\ MonthGrid.getDayEvents (MonthGrid.eventCounts [cell] [night]) cell = 1.
Proof. repeat split. Qed.

(* ------------------------------------------------------------------------- *)
(** * The roving focus *)
(* ------------------------------------------------------------------------- *)

Lemma handleKeyDown_in_range (len f : Z) (key : string) :
  0 < len -> 0 <= f < len -> 0 <= A11y.handleKeyDown len f key < len.
Proof.
  intros Hlen Hf. unfold A11y.handleKeyDown. cbv zeta.
  repeat match goal with
         | |- context [if ?b then _ else _] => destruct b
         end; lia.
Qed.

(** X23.  In a grid with at least one item, starting from an index of the
    grid, the focused index stays an index of the grid after any sequence of
    keys, handled or not. *)
Theorem focus_stays_in_grid (len : Z) (keys : list string) (f : Z) :
  0 < len -> 0 <= f < len ->
  0 <= fold_left (A11y.handleKeyDown len) keys f < len.
Proof.
  intros Hlen. revert f.
  induction keys as [|key keys IH]; intros f Hf; simpl; [exact Hf|].
  apply IH. now apply handleKeyDown_in_range.
Qed.

Lemma focus_stays_in_grid_witness :
  0 <= fold_left (A11y.handleKeyDown 31)
         ["ArrowDown"; "ArrowDown"; "End"; "ArrowRight"; "Tab"; "ArrowUp";
          "Home"; "ArrowLeft"]%string 20
     < 31.
Proof. apply (focus_stays_in_grid 31); lia. Defined.

(** Without items the index leaves the grid: [End] gives [-1]. *)
Example focus_of_empty_grid : A11y.handleKeyDown 0 0 "End" = -1.
Proof. reflexivity. Qed.
